(** * authed.online: verification sessions and deferred batch admission

    A shallow embedding of the combined server (Express backend plus
    Discord bot): the OAuth callback [POST /api/auth/discord], the helpers
    [assignVerifiedRole], [sendToLogger] and [pullUserToGuild], and the
    [/pull] slash command.

    Conventions of the model.
    - JavaScript values are the JSON fragment [JVal]; numbers are integers
      or [NaN] (timestamps, status codes and counters are integers; fractions
      and infinities are outside the model).
    - Conversions that JavaScript applies silently are written out where
      they can throw: ToString of a template literal, of [new Error(m)], of
      [parseInt(x)] and of [new URLSearchParams({...})], and ToNumber of an
      operand of [*].  The conversion of a string to a number is a parameter
      of the model ([string_to_number]).
    - Arrays and objects have an identity: a key of the [userTokens] map
      that is an array or an object carries the reference of the response it
      was parsed from.
    - The handlers are computations in a state-and-exception monad [M] over
      a [World]: the [userTokens] map, the wall clock read by [Date.now()],
      and a trace of the store operations and network requests performed.
    - The network is an oracle [net]: given the world at the time of the
      call and the request, it answers with a response or a connection
      failure, and with the time the call took.  The clock moves by that
      time, so it never goes back.  Every theorem quantifies over the
      oracle.
    - The check that discord.js applies to the fields of an embed is a
      parameter ([field_ok]); [DiscordJs.field_ok] is the library's
      documented limit.
    - One handler runs at a time; interleaving of handlers at [await] is not
      modelled.  The two detached tasks of the callback run to completion
      inside the handler's computation, with their rejection handlers.
    - What a handler answers ([res.json], [interaction.reply],
      [interaction.editReply]) is the value of its computation; sending it
      is not modelled as a network call.
    - Console output is not modelled; the template literals passed to the
      console are evaluated, since they can throw. *)

From Stdlib Require Import ZArith String Ascii List Bool Lia DecimalString.
Import ListNotations.

Set Warnings "-register-all".
Local Open Scope string_scope.
Local Open Scope Z_scope.

(* ================================================================== *)
(** * JavaScript values *)
(* ================================================================== *)

Module Js.

(** A JavaScript number of the integer fragment. *)
Inductive JsNum : Type :=
| Fin (z : Z)
| NaN.

(** A value as [JSON.parse] produces it, plus [undefined] for a missing
    property. *)
Inductive JVal : Type :=
| JUndefined
| JNull
| JBool (b : bool)
| JNum (n : JsNum)
| JStr (s : string)
| JArr (items : list JVal)
| JObj (fields : list (string * JVal)).

(** The outcome of an expression that may throw an [Error]; the payload
    of [Throw] is the error's [message]. *)
Inductive Result (A : Type) : Type :=
| Ok (a : A)
| Throw (message : string).
Arguments Ok {A} a.
Arguments Throw {A} message.

Definition rbind {A B : Type} (r : Result A) (k : A -> Result B) : Result B :=
  match r with
  | Ok a => k a
  | Throw e => Throw e
  end.

(** [!!v]: ToBoolean. *)
Definition truthy (v : JVal) : bool :=
  match v with
  | JUndefined | JNull => false
  | JBool b => b
  | JNum (Fin z) => negb (z =? 0)
  | JNum NaN => false
  | JStr s => negb (s =? "")%string
  | JArr _ | JObj _ => true
  end.

(** [a || b] on values. *)
Definition js_or (a b : JVal) : JVal := if truthy a then a else b.

Definition Z_to_string (z : Z) : string := NilZero.string_of_int (Z.to_int z).

Definition num_to_string (n : JsNum) : string :=
  match n with
  | Fin z => Z_to_string z
  | NaN => "NaN"
  end.

Fixpoint lookup_field (k : string) (fields : list (string * JVal)) : JVal :=
  match fields with
  | [] => JUndefined
  | (k', v) :: rest => if (k =? k')%string then v else lookup_field k rest
  end.

Fixpoint has_field (k : string) (fields : list (string * JVal)) : bool :=
  match fields with
  | [] => false
  | (k', _) :: rest => (k =? k')%string || has_field k rest
  end.

(** The message of the [TypeError] of a failed conversion to a primitive. *)
Definition cannot_convert : string :=
  "Cannot convert object to primitive value".

(** ToString, as a template literal, [new Error(v)], [parseInt(v)] or
    [URLSearchParams] applies it.  An array joins its elements with commas,
    [null] and [undefined] elements giving the empty string.  An object
    parsed from JSON is converted by [Object.prototype.toString], unless it
    has a property of its own called [toString]: that property is not a
    function, [valueOf] does not give a primitive either, and the
    conversion throws. *)
Fixpoint js_to_string (v : JVal) : Result string :=
  match v with
  | JUndefined => Ok "undefined"
  | JNull => Ok "null"
  | JBool true => Ok "true"
  | JBool false => Ok "false"
  | JNum n => Ok (num_to_string n)
  | JStr s => Ok s
  | JArr items =>
      (fix join (xs : list JVal) : Result string :=
         match xs with
         | [] => Ok ""
         | x :: rest =>
             rbind (match x with
                    | JUndefined | JNull => Ok ""
                    | _ => js_to_string x
                    end)
                   (fun s =>
                      match rest with
                      | [] => Ok s
                      | _ :: _ =>
                          rbind (join rest) (fun t => Ok (s ++ "," ++ t))
                      end)
         end) items
  | JObj fields =>
      if has_field "toString" fields then Throw cannot_convert
      else Ok "[object Object]"
  end.

(** Property read [v.k] for the property names the server uses (none of
    them is defined on a primitive's or an array's prototype). *)
Definition get_prop (v : JVal) (k : string) : Result JVal :=
  match v with
  | JUndefined =>
      Throw ("Cannot read properties of undefined (reading '" ++ k ++ "')")
  | JNull =>
      Throw ("Cannot read properties of null (reading '" ++ k ++ "')")
  | JObj fields => Ok (lookup_field k fields)
  | _ => Ok JUndefined
  end.

(** ** Numbers *)

Definition js_add (a b : JsNum) : JsNum :=
  match a, b with
  | Fin x, Fin y => Fin (x + y)
  | _, _ => NaN
  end.

Definition js_mul (a b : JsNum) : JsNum :=
  match a, b with
  | Fin x, Fin y => Fin (x * y)
  | _, _ => NaN
  end.

(** [a % b]: the remainder takes the sign of the dividend. *)
Definition js_rem (a b : JsNum) : JsNum :=
  match a, b with
  | Fin x, Fin y => if y =? 0 then NaN else Fin (Z.rem x y)
  | _, _ => NaN
  end.

(** [a >= b]: false as soon as one side is [NaN]. *)
Definition js_ge (a b : JsNum) : bool :=
  match a, b with
  | Fin x, Fin y => y <=? x
  | _, _ => false
  end.

(** White space, for the ASCII characters. *)
Definition is_space (c : ascii) : bool :=
  match nat_of_ascii c with
  | 9%nat | 10%nat | 11%nat | 12%nat | 13%nat | 32%nat => true
  | _ => false
  end.

Fixpoint skip_space (s : string) : string :=
  match s with
  | String c rest => if is_space c then skip_space rest else s
  | EmptyString => s
  end.

Definition digit_val (radix : Z) (c : ascii) : option Z :=
  let n := Z.of_nat (nat_of_ascii c) in
  let d :=
    if (48 <=? n) && (n <=? 57) then Some (n - 48)
    else if (97 <=? n) && (n <=? 122) then Some (n - 87)
    else if (65 <=? n) && (n <=? 90) then Some (n - 55)
    else None in
  match d with
  | Some v => if v <? radix then Some v else None
  | None => None
  end.

(** The longest prefix of digits of [s], read in the given radix; [acc] is
    the value read so far, [None] before the first digit.  The rest of the
    string is returned with the value. *)
Fixpoint read_digits (radix : Z) (s : string) (acc : option Z)
  : option Z * string :=
  match s with
  | EmptyString => (acc, s)
  | String c rest =>
      match digit_val radix c with
      | Some d =>
          read_digits radix rest
            (Some (match acc with Some a => a * radix + d | None => d end))
      | None => (acc, s)
      end
  end.

Definition strip_sign (s : string) : bool * string :=
  match s with
  | String "-" rest => (true, rest)
  | String "+" rest => (false, rest)
  | _ => (false, s)
  end.

Definition strip_hex_prefix (s : string) : Z * string :=
  match s with
  | String "0" (String "x" rest) => (16, rest)
  | String "0" (String "X" rest) => (16, rest)
  | _ => (10, s)
  end.

(** [parseInt(s)] without a radix argument: leading white space, a sign,
    a [0x] prefix, then the longest run of digits; [NaN] when there is no
    digit. *)
Definition parseInt_string (s : string) : JsNum :=
  let (neg, s1) := strip_sign (skip_space s) in
  let (radix, s2) := strip_hex_prefix s1 in
  match fst (read_digits radix s2 None) with
  | Some n => Fin (if neg then - n else n)
  | None => NaN
  end.

(** [parseInt(v)]: the argument is converted with ToString first. *)
Definition parseInt (v : JVal) : Result JsNum :=
  rbind (js_to_string v) (fun s => Ok (parseInt_string s)).

(** ToNumber, as the operator [*] applies it to an operand.  A string is
    converted by [string_to_number], a parameter: ECMAScript's
    StringToNumber.  An array is converted to a string first; an object
    parsed from JSON gives [NaN], or throws as for ToString. *)
Definition to_number (string_to_number : string -> JsNum) (v : JVal)
  : Result JsNum :=
  match v with
  | JUndefined => Ok NaN
  | JNull => Ok (Fin 0)
  | JBool true => Ok (Fin 1)
  | JBool false => Ok (Fin 0)
  | JNum n => Ok n
  | JStr s => Ok (string_to_number s)
  | JArr _ => rbind (js_to_string v) (fun s => Ok (string_to_number s))
  | JObj _ => rbind (js_to_string v) (fun _ => Ok NaN)
  end.

End Js.
Export Js.

(* ================================================================== *)
(** * The world: token store, clock, trace, network *)
(* ================================================================== *)

(** The value stored per user by the callback:
    [{ access_token, refresh_token, expires_at }]. *)
Record TokenData : Type := mkTokenData {
  access_token : JVal;
  refresh_token : JVal;
  expires_at : JsNum
}.

(** A key of the [userTokens] map.  A primitive is its own identity; an
    array or an object is identified by the reference of the response it
    was parsed from, and carries its content. *)
Inductive Key : Type :=
| KUndefined
| KNull
| KBool (b : bool)
| KNum (n : JsNum)
| KStr (s : string)
| KArr (ref : nat) (items : list JVal)
| KObj (ref : nat) (fields : list (string * JVal)).

(** The value a key is. *)
Definition key_value (k : Key) : JVal :=
  match k with
  | KUndefined => JUndefined
  | KNull => JNull
  | KBool b => JBool b
  | KNum n => JNum n
  | KStr s => JStr s
  | KArr _ items => JArr items
  | KObj _ fields => JObj fields
  end.

(** The key that a value parsed under reference [ref] is. *)
Definition to_key (ref : nat) (v : JVal) : Key :=
  match v with
  | JUndefined => KUndefined
  | JNull => KNull
  | JBool b => KBool b
  | JNum n => KNum n
  | JStr s => KStr s
  | JArr items => KArr ref items
  | JObj fields => KObj ref fields
  end.

Inductive Request : Type :=
| TokenExchange (code : JVal)
    (* POST https://discord.com/api/oauth2/token *)
| GetProfile (bearer : JVal)
    (* GET https://discord.com/api/users/@me *)
| PutRole (userId : JVal)
    (* PUT .../guilds/GUILD_ID/members/userId/roles/VERIFIED_ROLE_ID *)
| PutMember (userId : JVal) (token : JVal)
    (* PUT .../guilds/GUILD_ID/members/userId, body { access_token } *)
| PostWebhook (userId : JVal) (email : JVal) (verified : string)
              (thumbnail : string).
    (* POST WEBHOOK_URL; the timestamp field is locale text, left out *)

Inductive Body : Type :=
| BodyJson (v : JVal)      (* the body is the JSON text of [v] *)
| BodyText (s : string).   (* the body is [s], which is not JSON *)

Record Response : Type := mkResponse {
  status : Z;
  statusText : string;
  body : Body
}.

(** [response.ok]: the status is in the range 200-299. *)
Definition ok (r : Response) : bool :=
  (200 <=? status r) && (status r <=? 299).

(** [await response.json()]; the message of the error thrown on a body
    that is not JSON is abbreviated. *)
Definition json (r : Response) : Result JVal :=
  match body r with
  | BodyJson v => Ok v
  | BodyText _ => Throw "invalid json response body"
  end.

(** The error-body idiom shared by [assignVerifiedRole] and
    [pullUserToGuild]:
    [try { errorData = JSON.parse(errorText) }
     catch { errorData = { message: errorText } }]. *)
Definition parse_error_body (r : Response) : JVal :=
  match body r with
  | BodyJson v => v
  | BodyText s => JObj [("message", JStr s)]
  end.

Inductive Event : Type :=
| EvKeys
| EvGet (userId : Key)
| EvSet (userId : Key) (data : TokenData)
| EvFetch (req : Request).

Record World : Type := mkWorld {
  userTokens : list (Key * TokenData);    (* in insertion order *)
  clock : Z;                              (* milliseconds *)
  trace : list Event                      (* oldest first *)
}.

(** What a [fetch] call resolves to: the time it took, and a response or a
    rejection (connection failure). *)
Record Fetched : Type := mkFetched {
  elapsed : nat;
  outcome : Result Response
}.

Definition Net : Type := World -> Request -> Fetched.

(** ** The [Map] holding the tokens *)

Module TokenMap.

Fixpoint list_eqb {A : Type} (eqb : A -> A -> bool) (xs ys : list A) : bool :=
  match xs, ys with
  | [], [] => true
  | x :: xs', y :: ys' => eqb x y && list_eqb eqb xs' ys'
  | _, _ => false
  end.

Definition num_eqb (a b : JsNum) : bool :=
  match a, b with
  | Fin x, Fin y => x =? y
  | NaN, NaN => true
  | _, _ => false
  end.

(** Equality of contents. *)
Fixpoint val_eqb (a b : JVal) : bool :=
  match a, b with
  | JUndefined, JUndefined => true
  | JNull, JNull => true
  | JBool x, JBool y => Bool.eqb x y
  | JNum x, JNum y => num_eqb x y
  | JStr x, JStr y => (x =? y)%string
  | JArr xs, JArr ys => list_eqb val_eqb xs ys
  | JObj xs, JObj ys =>
      list_eqb (fun p q => (fst p =? fst q)%string && val_eqb (snd p) (snd q))
               xs ys
  | _, _ => false
  end.

(** Key equality of [Map] (SameValueZero): primitives by value, arrays and
    objects by reference.  Two keys with the same reference are the same
    parsed object, so they carry the same content; the content is compared
    too, which makes equal keys equal terms. *)
Definition key_eqb (a b : Key) : bool :=
  match a, b with
  | KUndefined, KUndefined => true
  | KNull, KNull => true
  | KBool x, KBool y => Bool.eqb x y
  | KNum x, KNum y => num_eqb x y
  | KStr x, KStr y => (x =? y)%string
  | KArr r xs, KArr r' ys => (r =? r')%nat && val_eqb (JArr xs) (JArr ys)
  | KObj r xs, KObj r' ys => (r =? r')%nat && val_eqb (JObj xs) (JObj ys)
  | _, _ => false
  end.

Fixpoint get (k : Key) (m : list (Key * TokenData)) : option TokenData :=
  match m with
  | [] => None
  | (k', v) :: rest => if key_eqb k k' then Some v else get k rest
  end.

(** [Map.prototype.set]: an existing key keeps its place, a new key goes
    last. *)
Fixpoint set (k : Key) (v : TokenData) (m : list (Key * TokenData))
  : list (Key * TokenData) :=
  match m with
  | [] => [(k, v)]
  | (k', v') :: rest =>
      if key_eqb k k' then (k', v) :: rest else (k', v') :: set k v rest
  end.

Definition keys (m : list (Key * TokenData)) : list Key := map fst m.

End TokenMap.

(* ================================================================== *)
(** * The monad of handlers *)
(* ================================================================== *)

Definition M (A : Type) : Type := World -> Result A * World.

Definition ret {A : Type} (a : A) : M A := fun w => (Ok a, w).

Definition bind {A B : Type} (c : M A) (k : A -> M B) : M B :=
  fun w =>
    match c w with
    | (Ok a, w') => k a w'
    | (Throw e, w') => (Throw e, w')
    end.

(** [throw new Error(message)]. *)
Definition throw {A : Type} (message : string) : M A :=
  fun w => (Throw message, w).

(** [try { c } catch (error) { handler(error.message) }]. *)
Definition try_catch {A : Type} (c : M A) (handler : string -> M A) : M A :=
  fun w =>
    match c w with
    | (Ok a, w') => (Ok a, w')
    | (Throw e, w') => handler e w'
    end.

Definition lift {A : Type} (r : Result A) : M A := fun w => (r, w).

Declare Scope js_scope.
Delimit Scope js_scope with js.
Notation "x <- c ;; k" := (bind c (fun x => k))
  (at level 61, c at next level, right associativity) : js_scope.
Notation "c ;;; k" := (bind c (fun _ => k))
  (at level 61, right associativity) : js_scope.
Local Open Scope js_scope.

Definition record (e : Event) (w : World) : World :=
  mkWorld (userTokens w) (clock w) (trace w ++ [e]).

(** [Date.now()]. *)
Definition date_now : M Z := fun w => (Ok (clock w), w).

(** The reference of the objects of the response just parsed: responses
    are numbered by the length of the trace, which grows with every
    request, so the objects of two responses never share a reference. *)
Definition object_ref : M nat := fun w => (Ok (length (trace w)), w).

(** [Array.from(userTokens.keys())]. *)
Definition store_keys : M (list Key) :=
  fun w => (Ok (TokenMap.keys (userTokens w)), record EvKeys w).

(** [userTokens.get(userId)]; [None] stands for [undefined]. *)
Definition store_get (userId : Key) : M (option TokenData) :=
  fun w => (Ok (TokenMap.get userId (userTokens w)), record (EvGet userId) w).

(** [userTokens.set(userId, data)]. *)
Definition store_set (userId : Key) (data : TokenData) : M unit :=
  fun w =>
    (Ok tt,
     mkWorld (TokenMap.set userId data (userTokens w)) (clock w)
             (trace w ++ [EvSet userId data])).

(* ================================================================== *)
(** * Data of the handlers *)
(* ================================================================== *)

(** ** The [results] object of [/pull] *)

Record Results : Type := mkResults {
  total : nat;
  added : nat;
  already_member : nat;
  failed : nat;
  errors : list string
}.

(** The body of the [try] inside the loop. *)
Definition count_result (result : string) (results : Results) : Results :=
  if (result =? "added")%string then
    mkResults (total results) (S (added results)) (already_member results)
              (failed results) (errors results)
  else if (result =? "already_member")%string then
    mkResults (total results) (added results) (S (already_member results))
              (failed results) (errors results)
  else results.

(** The line pushed to [errors]: [`<@${userId}>: ${error.message}`]. *)
Definition error_line (userId : JVal) (message : string) : Result string :=
  rbind (js_to_string userId) (fun id => Ok ("<@" ++ id ++ ">: " ++ message)).

(** [results.failed++]. *)
Definition count_failed (results : Results) : Results :=
  mkResults (total results) (added results) (already_member results)
            (S (failed results)) (errors results).

(** [results.errors.push(line)]. *)
Definition push_error (line : string) (results : Results) : Results :=
  mkResults (total results) (added results) (already_member results)
            (failed results) (errors results ++ [line]).

Definition nothing_to_pull : string :=
  "⚠️ No users have verified yet. There are no users to pull.".

Definition AUTHORIZED_PULLER_ID : string := "1404732292412477531".

(** What the command answers with: a text, or the result embed, which is
    rendered from the [results] object. *)
Inductive Reply : Type :=
| ReplyContent (content : string)
| ReplyEmbed (results : Results).

(** ** The result embed of [/pull] *)

Definition newline : string := String (ascii_of_nat 10) EmptyString.

(** [n.toString()] of a counter. *)
Definition nat_to_string (n : nat) : string := Z_to_string (Z.of_nat n).

(** [.setColor(results.failed === 0 ? '#00ff00' : '#ffaa00')]. *)
Definition embed_color (results : Results) : string :=
  if (failed results =? 0)%nat then "#00ff00" else "#ffaa00".

(** The four fields of the first [addFields]. *)
Definition count_fields (results : Results) : list (string * string) :=
  [("📊 Total Users", nat_to_string (total results));
   ("✅ Successfully Added", nat_to_string (added results));
   ("ℹ️ Already Members", nat_to_string (already_member results));
   ("❌ Failed", nat_to_string (failed results))].

(** The field added when [results.errors.length > 0]: the first five
    lines joined by newlines, then the number of lines left out. *)
Definition error_field (results : Results) : option (string * string) :=
  if (0 <? length (errors results))%nat then
    let errorList := String.concat newline (firstn 5 (errors results)) in
    let moreErrors :=
      if (5 <? length (errors results))%nat then
        newline ++ "...and "
          ++ nat_to_string (length (errors results) - 5) ++ " more"
      else "" in
    Some ("⚠️ Errors", errorList ++ moreErrors)
  else None.

(** All the fields passed to [addFields], in order. *)
Definition embed_fields (results : Results) : list (string * string) :=
  (count_fields results
     ++ match error_field results with
        | Some field => [field]
        | None => []
        end)%list.

(** ** The [user] object of the callback *)

Module User.
Record t : Type := mk {
  id : JVal;
  username : JVal;
  discriminator : JVal;
  email : JVal;
  avatar : string;
  verified : JVal
}.
End User.

(** The [avatar] entry of the object literal:
    [userData.avatar ? `.../avatars/${id}/${avatar}.png`
                     : `.../embed/avatars/${parseInt(discriminator) % 5}.png`]. *)
Definition avatar_url (id avatar discriminator : JVal) : Result string :=
  if truthy avatar then
    rbind (js_to_string id) (fun idText =>
    rbind (js_to_string avatar) (fun avatarText =>
    Ok ("https://cdn.discordapp.com/avatars/" ++ idText ++ "/"
          ++ avatarText ++ ".png")))
  else
    rbind (parseInt discriminator) (fun n =>
    Ok ("https://cdn.discordapp.com/embed/avatars/"
          ++ num_to_string (js_rem n (Fin 5)) ++ ".png")).

(** [const user = { id: userData.id, ..., verified: userData.verified }]. *)
Definition build_user (userData : JVal) : Result User.t :=
  rbind (get_prop userData "id") (fun id =>
  rbind (get_prop userData "username") (fun username =>
  rbind (get_prop userData "discriminator") (fun discriminator =>
  rbind (get_prop userData "email") (fun email =>
  rbind (get_prop userData "avatar") (fun avatar =>
  rbind (avatar_url id avatar discriminator) (fun avatarUrl =>
  rbind (get_prop userData "verified") (fun verified =>
  Ok (User.mk id username discriminator email avatarUrl verified)))))))).

(** ** Replies of the callback *)

Record HttpReply : Type := mkReply {
  reply_status : Z;
  reply_body : JVal
}.

(** [res.status(code).json({ success: false, error })]. *)
Definition failure (code : Z) (error : JVal) : HttpReply :=
  mkReply code (JObj [("success", JBool false); ("error", error)]).

(** [res.json({ success: true, user: { id, username, avatar, email } })]. *)
Definition success_reply (user : User.t) : HttpReply :=
  mkReply 200
    (JObj [("success", JBool true);
           ("user",
            JObj [("id", User.id user);
                  ("username", User.username user);
                  ("avatar", JStr (User.avatar user));
                  ("email", User.email user)])]).

Section Server.

(** ECMAScript's StringToNumber, for the operand of [*]. *)
Variable string_to_number : string -> JsNum.

(** The check of discord.js on a field (name, value) given to
    [EmbedBuilder.addFields]. *)
Variable field_ok : string * string -> bool.

(** The network the server talks to. *)
Variable net : Net.

(** [CONFIG.WEBHOOK_URL], [None] when the variable is unset or empty. *)
Variable WEBHOOK_URL : option string.

(** [await fetch(...)]: the request is recorded, the oracle answers, the
    clock advances by the time the call took. *)
Definition fetch (req : Request) : M Response :=
  fun w =>
    let f := net w req in
    (outcome f,
     mkWorld (userTokens w) (clock w + Z.of_nat (elapsed f))
             (trace w ++ [EvFetch req])).

(** ** [pullUserToGuild] *)

Definition pullUserToGuild (userId : Key) : M string :=
  tokenData <- store_get userId ;;
  match tokenData with
  | None => throw "No access token stored for this user"
  | Some tokenData =>
      now <- date_now ;;
      if js_ge (Fin now) (expires_at tokenData)
      then throw "Access token expired"
      else
        try_catch
          ((* the template of the URL *)
           _ <- lift (js_to_string (key_value userId)) ;;
           response <- fetch (PutMember (key_value userId)
                                (access_token tokenData)) ;;
           if negb (ok response) then
             let errorData := parse_error_body response in
             message <- lift (get_prop errorData "message") ;;
             text <- lift (js_to_string
                             (js_or message
                                (JStr ("Failed to pull user: "
                                       ++ statusText response)))) ;;
             throw text
           else if status response =? 201 then
             (* console.log(`... ${userId} ...`) *)
             _ <- lift (js_to_string (key_value userId)) ;;
             ret "added"
           else if status response =? 204 then
             _ <- lift (js_to_string (key_value userId)) ;;
             ret "already_member"
           else ret "success")
          (fun error =>
             (* console.error(`... ${userId}:`, error.message) *)
             _ <- lift (js_to_string (key_value userId)) ;;
             throw error)
  end.

(** ** The [/pull] command *)

(** [for (const userId of storedUsers) { try {...} catch (error) {...} }]. *)
Fixpoint pull_each (storedUsers : list Key) (results : Results) : M Results :=
  match storedUsers with
  | [] => ret results
  | userId :: rest =>
      results' <- try_catch
                    (result <- pullUserToGuild userId ;;
                     ret (count_result result results))
                    (fun error =>
                       let results := count_failed results in
                       line <- lift (error_line (key_value userId) error) ;;
                       ret (push_error line results)) ;;
      pull_each rest results'
  end.

Definition pull_command (interactionUserId : string) : M Reply :=
  try_catch
    (if negb (interactionUserId =? AUTHORIZED_PULLER_ID)%string then
       ret (ReplyContent "❌ You are not authorized to use this command.")
     else
       storedUsers <- store_keys ;;
       if (length storedUsers =? 0)%nat then
         ret (ReplyContent nothing_to_pull)
       else
         results <- pull_each storedUsers
                      (mkResults (length storedUsers) 0 0 0 []) ;;
         (* new EmbedBuilder()...addFields(...): a field that the library
            refuses makes it throw *)
         if forallb field_ok (embed_fields results)
         then ret (ReplyEmbed results)
         else throw "Invalid embed field")
    (fun _ =>
       ret (ReplyContent
              "❌ An error occurred while pulling users. Check console for details.")).

(** ** [assignVerifiedRole] *)

Definition assignVerifiedRole (userId : JVal) : M unit :=
  try_catch
    ((* the template of the URL *)
     _ <- lift (js_to_string userId) ;;
     response <- fetch (PutRole userId) ;;
     if negb (ok response) then
       let errorData := parse_error_body response in
       if status response =? 404 then
         throw "User is not in the Discord server"
       else if status response =? 403 then
         throw "Bot lacks permission to assign roles"
       else if status response =? 401 then
         throw "Bot token is invalid"
       else
         message <- lift (get_prop errorData "message") ;;
         text <- lift (js_to_string
                         (js_or message (JStr (statusText response)))) ;;
         throw ("Failed to assign role: " ++ text)
     else
       (* console.log(`... ${userId}`) *)
       _ <- lift (js_to_string userId) ;;
       ret tt)
    (fun error => throw error).

(** ** [sendToLogger] *)

Definition sendToLogger (user : User.t) : M unit :=
  match WEBHOOK_URL with
  | None => ret tt
  | Some _ =>
      let payload :=
        PostWebhook (User.id user)
                    (js_or (User.email user) (JStr "Not provided"))
                    (if truthy (User.verified user) then "Yes" else "No")
                    (User.avatar user) in
      try_catch
        (response <- fetch payload ;;
         ret tt)
        (fun error => throw error)
  end.

(** ** [POST /api/auth/discord] *)

(** [promise.catch(error => console.error(...))] on a task that is not
    awaited: a rejection stops at the handler. *)
Definition detached (task : M unit) : M unit :=
  try_catch task (fun _ => ret tt).

Definition auth_discord (reqBody : JVal) : M HttpReply :=
  code <- lift (get_prop reqBody "code") ;;
  if negb (truthy code) then
    ret (failure 400 (JStr "No authorization code provided"))
  else
    try_catch
      ((* Step 1: exchange code for access token;
          new URLSearchParams({ ..., code, ... }) converts the code *)
       _ <- lift (js_to_string code) ;;
       tokenResponse <- fetch (TokenExchange code) ;;
       tokenData <- lift (json tokenResponse) ;;
       if negb (ok tokenResponse) then
         error_description <- lift (get_prop tokenData "error_description") ;;
         error <- lift (get_prop tokenData "error") ;;
         ret (failure 400
                (js_or error_description
                   (js_or error
                      (JStr "Failed to exchange authorization code"))))
       else
         (* Step 2: fetch user data, with `Bearer ${access_token}` *)
         bearer <- lift (get_prop tokenData "access_token") ;;
         _ <- lift (js_to_string bearer) ;;
         userResponse <- fetch (GetProfile bearer) ;;
         userData <- lift (json userResponse) ;;
         ref <- object_ref ;;
         if negb (ok userResponse) then
           ret (failure 400 (JStr "Failed to fetch Discord user data"))
         else
           _ <- lift (get_prop userData "username") ;;
           user <- lift (build_user userData) ;;
           (* store access token for potential pulling later *)
           access <- lift (get_prop tokenData "access_token") ;;
           (if truthy access then
              refresh <- lift (get_prop tokenData "refresh_token") ;;
              now <- date_now ;;
              expires_in <- lift (get_prop tokenData "expires_in") ;;
              seconds <- lift (to_number string_to_number expires_in) ;;
              store_set (to_key ref (User.id user))
                (mkTokenData access refresh
                   (js_add (Fin now) (js_mul seconds (Fin 1000)))) ;;;
              (* console.log(`... ${user.id}`) *)
              _ <- lift (js_to_string (User.id user)) ;;
              ret tt
            else ret tt) ;;;
           (* Step 3: assign verified role (non-blocking) *)
           detached (assignVerifiedRole (User.id user)) ;;;
           (* Step 4: send to webhook logger (non-blocking) *)
           detached (sendToLogger user) ;;;
           (* return success response *)
           ret (success_reply user))
      (fun error =>
         ret (failure 500
                (js_or (JStr error)
                   (JStr "Internal server error during authentication")))).

(** ** The session, stage by stage

    The part of the [try] block of the callback up to and including the
    write to the token store: either the callback has answered (a [return
    res.status(400)...] of the two early stages), or the user object is
    built and, if the exchange gave an access token, the token is stored
    ([stored]). *)

Inductive Stage : Type :=
| Replied (reply : HttpReply)
| Persisted (user : User.t) (stored : bool).

Definition until_persisted (code : JVal) : M Stage :=
  _ <- lift (js_to_string code) ;;
  tokenResponse <- fetch (TokenExchange code) ;;
  tokenData <- lift (json tokenResponse) ;;
  if negb (ok tokenResponse) then
    error_description <- lift (get_prop tokenData "error_description") ;;
    error <- lift (get_prop tokenData "error") ;;
    ret (Replied
           (failure 400
              (js_or error_description
                 (js_or error
                    (JStr "Failed to exchange authorization code")))))
  else
    bearer <- lift (get_prop tokenData "access_token") ;;
    _ <- lift (js_to_string bearer) ;;
    userResponse <- fetch (GetProfile bearer) ;;
    userData <- lift (json userResponse) ;;
    ref <- object_ref ;;
    if negb (ok userResponse) then
      ret (Replied (failure 400 (JStr "Failed to fetch Discord user data")))
    else
      _ <- lift (get_prop userData "username") ;;
      user <- lift (build_user userData) ;;
      access <- lift (get_prop tokenData "access_token") ;;
      if truthy access then
        refresh <- lift (get_prop tokenData "refresh_token") ;;
        now <- date_now ;;
        expires_in <- lift (get_prop tokenData "expires_in") ;;
        seconds <- lift (to_number string_to_number expires_in) ;;
        store_set (to_key ref (User.id user))
          (mkTokenData access refresh
             (js_add (Fin now) (js_mul seconds (Fin 1000)))) ;;;
        ret (Persisted user true)
      else ret (Persisted user false).

(** The world once the two detached tasks have run. *)
Definition after_tasks (user : User.t) (w : World) : World :=
  snd (detached (sendToLogger user)
         (snd (detached (assignVerifiedRole (User.id user)) w))).

(** The clock when the callback reads [Date.now()] for [expires_at]:
    after the exchange and the profile request. *)
Definition stored_at (code access : JVal) (w : World) : Z :=
  clock (snd (fetch (GetProfile access)
                (snd (fetch (TokenExchange code) w)))).

End Server.

(* ================================================================== *)
(** * The limits of discord.js *)
(* ================================================================== *)

Module DiscordJs.

(** The length of a string as JavaScript counts it (UTF-16 code units),
    from its UTF-8 bytes: a continuation byte counts for nothing, the first
    byte of a four-byte sequence for two. *)
Fixpoint utf16_length (s : string) : nat :=
  match s with
  | EmptyString => 0%nat
  | String c rest =>
      let b := nat_of_ascii c in
      ((if (b <? 128)%nat then 1
        else if (b <? 192)%nat then 0
        else if (b <? 240)%nat then 1
        else 2) + utf16_length rest)%nat
  end.

(** A field name has 1 to 256 characters and a field value 1 to 1024. *)
Definition field_ok (field : string * string) : bool :=
  let name := utf16_length (fst field) in
  let value := utf16_length (snd field) in
  ((1 <=? name) && (name <=? 256) && (1 <=? value) && (value <=? 1024))%nat.

End DiscordJs.

(* ================================================================== *)
(** * Reading a trace *)
(* ================================================================== *)

(** The users looked up in the token store, in order: one entry per call
    of [pullUserToGuild]. *)
Definition pulled (tr : list Event) : list Key :=
  flat_map (fun e => match e with EvGet userId => [userId] | _ => [] end) tr.

(** The network requests issued, in order. *)
Definition requests (tr : list Event) : list Request :=
  flat_map (fun e => match e with EvFetch req => [req] | _ => [] end) tr.

(** The writes to the token store, in order. *)
Definition writes (tr : list Event) : list Key :=
  flat_map (fun e => match e with EvSet userId _ => [userId] | _ => [] end) tr.

(** The user has a stored token that is expired at the clock of [w]:
    the test [Date.now() >= tokenData.expires_at]. *)
Definition expired_in (w : World) (userId : Key) : bool :=
  match TokenMap.get userId (userTokens w) with
  | Some tokenData => js_ge (Fin (clock w)) (expires_at tokenData)
  | None => false
  end.

(** [added + already_member + failed] of a results object. *)
Definition counted (r : Results) : nat :=
  (added r + already_member r + failed r)%nat.

(** The value can be put into a template literal. *)
Definition printable (v : JVal) : bool :=
  match js_to_string v with
  | Ok _ => true
  | Throw _ => false
  end.

(** One list is the other with some elements left out. *)
Inductive Subseq {A : Type} : list A -> list A -> Prop :=
| Subseq_nil : Subseq [] []
| Subseq_skip (x : A) (xs ys : list A) : Subseq xs ys -> Subseq xs (x :: ys)
| Subseq_take (x : A) (xs ys : list A) :
    Subseq xs ys -> Subseq (x :: xs) (x :: ys).

(* ================================================================== *)
(** * Definitions used by the statements *)
(* ================================================================== *)

(** What [pullUserToGuild] makes of the gateway's answer. *)
Definition pull_answer (f : Fetched) : Result string :=
  match outcome f with
  | Throw e => Throw e
  | Ok response =>
      if negb (ok response) then
        rbind (get_prop (parse_error_body response) "message") (fun message =>
        rbind (js_to_string
                 (js_or message
                    (JStr ("Failed to pull user: " ++ statusText response))))
              (fun text => Throw text))
      else if status response =? 201 then Ok "added"
      else if status response =? 204 then Ok "already_member"
      else Ok "success"
  end.

(** One turn of the loop on the results object. *)
Definition turn (userId : Key) (res : Result string) (results : Results)
  : Result Results :=
  match res with
  | Ok result => Ok (count_result result results)
  | Throw message =>
      rbind (error_line (key_value userId) message) (fun line =>
      Ok (push_error line (count_failed results)))
  end.

(** The add-member request for a stored user. *)
Definition member_request (store : list (Key * TokenData)) (userId : Key)
  : Request :=
  PutMember (key_value userId)
            (match TokenMap.get userId store with
             | Some tokenData => access_token tokenData
             | None => JUndefined
             end).

(** ** Decimal numerals *)

Definition is_digit (c : ascii) : bool :=
  let n := Z.of_nat (nat_of_ascii c) in (48 <=? n) && (n <=? 57).

Fixpoint all_digits (s : string) : bool :=
  match s with
  | EmptyString => true
  | String c rest => is_digit c && all_digits rest
  end.

(** The number a decimal numeral denotes, continuing from [acc]. *)
Fixpoint decimal_from (acc : Z) (s : string) : Z :=
  match s with
  | EmptyString => acc
  | String c rest =>
      decimal_from (acc * 10 + (Z.of_nat (nat_of_ascii c) - 48)) rest
  end.

Definition decimal_value (s : string) : Z := decimal_from 0 s.


(* ================================================================== *)
(** * Fixtures *)
(* ================================================================== *)

Module Fixtures.

Definition grant (token : string) (expires : Z) : TokenData :=
  mkTokenData (JStr token) (JStr "refresh") (Fin expires).

Definition created : Fetched :=
  mkFetched 1 (Ok (mkResponse 201 "Created" (BodyJson (JObj [])))).

Definition no_content : Fetched :=
  mkFetched 1 (Ok (mkResponse 204 "No Content" (BodyText ""))).

Definition plain_ok : Fetched :=
  mkFetched 1 (Ok (mkResponse 200 "OK" (BodyJson (JObj [])))).

Definition forbidden : Fetched :=
  mkFetched 1
    (Ok (mkResponse 403 "Forbidden"
           (BodyJson (JObj [("message", JStr "Missing Permissions")])))).

(** A gateway that answers every request with 200. *)
Definition net_200 : Net := fun _ _ => plain_ok.

(** A gateway that adds "a", loses the connection on "b", and finds
    everybody else already present. *)
Definition net_abc : Net :=
  fun _ req =>
    match req with
    | PutMember (JStr "a") _ => created
    | PutMember (JStr "b") _ => mkFetched 1 (Throw "socket hang up")
    | _ => no_content
    end.

Definition one_user : World :=
  mkWorld [(KStr "1", grant "t1" 1000)] 0 [].

Definition three_users : World :=
  mkWorld [(KStr "a", grant "ta" 1000);
           (KStr "b", grant "tb" 1000);
           (KStr "c", grant "tc" 1000)] 10 [].

(** As [three_users], with the token of "b" expired. *)
Definition stale_b : World :=
  mkWorld [(KStr "a", grant "ta" 1000);
           (KStr "b", grant "tb" 5);
           (KStr "c", grant "tc" 1000)] 10 [].

Definition nobody : World := mkWorld [] 0 [].

(** The examples convert no string to a number: any function serves as
    [string_to_number] there. *)
Definition no_numerals : string -> JsNum := fun _ => NaN.

End Fixtures.

Module CallbackFixtures.

Definition token_body : JVal :=
  JObj [("access_token", JStr "AT"); ("refresh_token", JStr "RT");
        ("expires_in", JNum (Fin 604800))].

Definition invalid_grant : Response :=
  mkResponse 400 "Bad Request"
    (BodyJson (JObj [("error", JStr "invalid_grant");
                     ("error_description", JStr "Invalid code in request.")])).

Definition profile_body : JVal :=
  JObj [("id", JStr "42"); ("username", JStr "bob");
        ("discriminator", JStr "1234"); ("email", JStr "bob@example.com");
        ("avatar", JNull); ("verified", JBool true)].

(** A profile with neither avatar asset nor discriminator. *)
Definition bare_profile_body : JVal :=
  JObj [("id", JStr "42"); ("username", JStr "bob")].

Definition answer (v : JVal) : Fetched :=
  mkFetched 1 (Ok (mkResponse 200 "OK" (BodyJson v))).

(** The provider accepts the code "good" only; the role gateway answers
    with [role]. *)
Definition provider (profile : JVal) (role : Fetched) : Net :=
  fun _ req =>
    match req with
    | TokenExchange (JStr "good") => answer token_body
    | TokenExchange _ => mkFetched 1 (Ok invalid_grant)
    | GetProfile (JStr "AT") => answer profile
    | GetProfile _ =>
        mkFetched 1 (Ok (mkResponse 401 "Unauthorized" (BodyJson (JObj []))))
    | PutRole _ => role
    | _ => Fixtures.no_content
    end.

Definition net_role_forbidden : Net := provider profile_body Fixtures.forbidden.
Definition net_role_granted : Net := provider profile_body Fixtures.no_content.
Definition net_bare_profile : Net :=
  provider bare_profile_body Fixtures.no_content.

Definition good_request : JVal := JObj [("code", JStr "good")].
Definition bad_request : JVal := JObj [("code", JStr "used")].
Definition empty_request : JVal := JObj [].

Definition hook : option string := Some "https://discord.com/api/webhooks/1".

Definition bob : User.t :=
  User.mk (JStr "42") (JStr "bob") (JStr "1234") (JStr "bob@example.com")
          "https://cdn.discordapp.com/embed/avatars/4.png" (JBool true).

End CallbackFixtures.

Module MoreFixtures.

Definition unauthorized : Fetched :=
  mkFetched 1 (Ok (mkResponse 401 "Unauthorized" (BodyJson (JObj [])))).

(** The exchange succeeds without an access token; the profile request is
    answered all the same. *)
Definition net_tokenless : Net :=
  fun _ req =>
    match req with
    | TokenExchange _ =>
        CallbackFixtures.answer (JObj [("token_type", JStr "Bearer")])
    | GetProfile _ => CallbackFixtures.answer CallbackFixtures.profile_body
    | _ => Fixtures.no_content
    end.

(** The exchange succeeds; the profile request is refused. *)
Definition net_profile_denied : Net :=
  fun _ req =>
    match req with
    | TokenExchange _ => CallbackFixtures.answer CallbackFixtures.token_body
    | _ => unauthorized
    end.

(** No connection at all. *)
Definition net_down : Net :=
  fun _ _ => mkFetched 1 (Throw "connect ECONNREFUSED").

(** Every add-member request creates the member. *)
Definition net_created : Net := fun _ _ => Fixtures.created.

(** Every request is refused with 403. *)
Definition net_forbidden : Net := fun _ _ => Fixtures.forbidden.

(** Seven stored users. *)
Definition seven_users : World :=
  mkWorld [(KStr "1", Fixtures.grant "t1" 1000);
           (KStr "2", Fixtures.grant "t2" 1000);
           (KStr "3", Fixtures.grant "t3" 1000);
           (KStr "4", Fixtures.grant "t4" 1000);
           (KStr "5", Fixtures.grant "t5" 1000);
           (KStr "6", Fixtures.grant "t6" 1000);
           (KStr "7", Fixtures.grant "t7" 1000)] 0 [].

(** What [/pull] answers for [seven_users] when every request is refused. *)
Definition seven_failures : Results :=
  mkResults 7 0 0 7
    (map (fun userId => "<@" ++ userId ++ ">: Missing Permissions")
         ["1"; "2"; "3"; "4"; "5"; "6"; "7"]).

(** What [/pull] answers for [Fixtures.three_users] on [Fixtures.net_abc]. *)
Definition abc_results : Results :=
  mkResults 3 1 1 1 ["<@b>: socket hang up"].

(** A body of 1100 characters that is not JSON. *)
Definition long_text : string := String.concat "" (repeat "x" 1100).

(** The gateway answers "b" with 502 and the long body; everybody else is
    already a member. *)
Definition net_long_error : Net :=
  fun _ req =>
    match req with
    | PutMember (JStr "b") _ =>
        mkFetched 1 (Ok (mkResponse 502 "Bad Gateway" (BodyText long_text)))
    | _ => Fixtures.no_content
    end.

(** An object that cannot be converted to a string. *)
Definition odd : JVal := JObj [("toString", JNum (Fin 1))].

(** A profile whose id is such an object. *)
Definition odd_profile_body : JVal :=
  JObj [("id", odd); ("username", JStr "eve");
        ("discriminator", JStr "0")].

Definition net_odd_profile : Net :=
  CallbackFixtures.provider odd_profile_body Fixtures.no_content.

(** An object that converts to "[object Object]", and a profile whose id
    it is. *)
Definition boxed : JVal := JObj [("n", JNum (Fin 7))].

Definition boxed_profile_body : JVal :=
  JObj [("id", boxed); ("username", JStr "eve");
        ("discriminator", JStr "0")].

Definition net_boxed_profile : Net :=
  CallbackFixtures.provider boxed_profile_body Fixtures.no_content.

(** A store holding such a key, its token expired. *)
Definition odd_stored : World :=
  mkWorld [(to_key 2 odd, Fixtures.grant "t" 5);
           (KStr "c", Fixtures.grant "tc" 1000)] 10 [].

End MoreFixtures.


(* ================================================================== *)
(** * Keys of the token map *)
(* ================================================================== *)

Lemma num_eqb_eq (a b : JsNum) : TokenMap.num_eqb a b = true -> a = b.
Proof.
  destruct a, b; cbn; try discriminate; try reflexivity.
  intros H. apply Z.eqb_eq in H. congruence.
Qed.

Lemma num_eqb_refl (a : JsNum) : TokenMap.num_eqb a a = true.
Proof. destruct a; cbn; [apply Z.eqb_refl|reflexivity]. Qed.

Lemma val_eqb_eq : forall a b : JVal, TokenMap.val_eqb a b = true -> a = b.
Proof.
  fix IH 1.
  intros a b; destruct a as [| |x|x|x|xs|xs], b as [| |y|y|y|ys|ys];
    cbn [TokenMap.val_eqb]; try discriminate; try reflexivity.
  - intros H. apply Bool.eqb_prop in H. congruence.
  - intros H. apply num_eqb_eq in H. congruence.
  - intros H. apply String.eqb_eq in H. congruence.
  - intros H. f_equal. revert ys H.
    induction xs as [|x xs IHxs]; intros [|y ys]; cbn; try discriminate;
      try reflexivity.
    intros H. apply andb_true_iff in H as (Hx & Hxs).
    f_equal; [apply IH; exact Hx|apply IHxs; exact Hxs].
  - intros H. f_equal. revert ys H.
    induction xs as [|[k x] xs IHxs]; intros [|[k' y] ys]; cbn;
      try discriminate; try reflexivity.
    intros H. apply andb_true_iff in H as (Hx & Hxs).
    apply andb_true_iff in Hx as (Hk & Hx). apply String.eqb_eq in Hk.
    f_equal; [f_equal; [exact Hk|apply IH; exact Hx]|apply IHxs; exact Hxs].
Qed.

Lemma val_eqb_refl : forall a : JVal, TokenMap.val_eqb a a = true.
Proof.
  fix IH 1.
  intros a; destruct a as [| |x|x|x|xs|xs]; cbn [TokenMap.val_eqb];
    try reflexivity.
  - destruct x; reflexivity.
  - apply num_eqb_refl.
  - apply String.eqb_refl.
  - induction xs as [|x xs IHxs]; cbn; [reflexivity|].
    rewrite IH. exact IHxs.
  - induction xs as [|[k x] xs IHxs]; cbn; [reflexivity|].
    rewrite String.eqb_refl, IH. exact IHxs.
Qed.

(** Keys that the map identifies are the same key. *)
Lemma key_eqb_eq (a b : Key) : TokenMap.key_eqb a b = true -> a = b.
Proof.
  destruct a, b; cbn [TokenMap.key_eqb]; try discriminate; try reflexivity.
  - intros H. apply Bool.eqb_prop in H. congruence.
  - intros H. apply num_eqb_eq in H. congruence.
  - intros H. apply String.eqb_eq in H. congruence.
  - intros H. apply andb_true_iff in H as (Hr & Hv).
    apply Nat.eqb_eq in Hr. apply val_eqb_eq in Hv. congruence.
  - intros H. apply andb_true_iff in H as (Hr & Hv).
    apply Nat.eqb_eq in Hr. apply val_eqb_eq in Hv. congruence.
Qed.

Lemma key_eqb_refl (a : Key) : TokenMap.key_eqb a a = true.
Proof.
  destruct a; cbn [TokenMap.key_eqb]; try reflexivity.
  - destruct b; reflexivity.
  - apply num_eqb_refl.
  - apply String.eqb_refl.
  - rewrite Nat.eqb_refl, val_eqb_refl. reflexivity.
  - rewrite Nat.eqb_refl, val_eqb_refl. reflexivity.
Qed.

(** A key is the key of its value. *)
Lemma key_value_to_key (ref : nat) (v : JVal) : key_value (to_key ref v) = v.
Proof. destruct v; reflexivity. Qed.

Lemma key_eqb_neq (a b : Key) : a <> b -> TokenMap.key_eqb a b = false.
Proof.
  intros Hne. destruct (TokenMap.key_eqb a b) eqn:H; [|reflexivity].
  elim Hne. apply key_eqb_eq. exact H.
Qed.

(** A user with a stored token is among the keys. *)
Lemma get_some_in_keys (userId : Key) (tokenData : TokenData)
      (m : list (Key * TokenData)) :
  TokenMap.get userId m = Some tokenData -> In userId (TokenMap.keys m).
Proof.
  induction m as [|[k v] rest IH]; cbn; [discriminate|].
  destruct (TokenMap.key_eqb userId k) eqn:Hk.
  - intros _. left. symmetry. apply key_eqb_eq. exact Hk.
  - intros H. right. apply IH. exact H.
Qed.

(** What was set is what is got. *)
Lemma get_set_same (k : Key) (v : TokenData) (m : list (Key * TokenData)) :
  TokenMap.get k (TokenMap.set k v m) = Some v.
Proof.
  induction m as [|[k' v'] rest IH]; cbn.
  - rewrite key_eqb_refl. reflexivity.
  - destruct (TokenMap.key_eqb k k') eqn:Hk; cbn; rewrite Hk; [reflexivity|].
    exact IH.
Qed.

(** Setting one key leaves the others alone. *)
Lemma get_set_other (k k' : Key) (v : TokenData)
      (m : list (Key * TokenData)) :
  k' <> k -> TokenMap.get k' (TokenMap.set k v m) = TokenMap.get k' m.
Proof.
  intros Hne. induction m as [|[k0 v0] rest IH]; cbn.
  - rewrite (key_eqb_neq _ _ Hne). reflexivity.
  - destruct (TokenMap.key_eqb k k0) eqn:Hk; cbn.
    + apply key_eqb_eq in Hk. subst k0.
      rewrite (key_eqb_neq _ _ Hne). reflexivity.
    + rewrite IH. reflexivity.
Qed.

(** A key that is present keeps its place; a new key goes last. *)
Lemma keys_set (k : Key) (v : TokenData) (m : list (Key * TokenData)) :
  TokenMap.keys (TokenMap.set k v m)
  = match TokenMap.get k m with
    | Some _ => TokenMap.keys m
    | None => (TokenMap.keys m ++ [k])%list
    end.
Proof.
  induction m as [|[k0 v0] rest IH]; cbn; [reflexivity|].
  destruct (TokenMap.key_eqb k k0) eqn:Hk; cbn; [reflexivity|].
  unfold TokenMap.keys in IH. rewrite IH.
  destruct (TokenMap.get k rest); reflexivity.
Qed.




(** A subsequence of distinct elements has distinct elements. *)
Lemma Subseq_in {A : Type} (xs ys : list A) :
  Subseq xs ys -> forall x, In x xs -> In x ys.
Proof.
  induction 1 as [|y xs ys _ IH|y xs ys _ IH]; intros x Hin.
  - exact Hin.
  - right. exact (IH x Hin).
  - destruct Hin as [<-|Hin]; [left; reflexivity|right; exact (IH x Hin)].
Qed.

Lemma Subseq_NoDup {A : Type} (xs ys : list A) :
  Subseq xs ys -> NoDup ys -> NoDup xs.
Proof.
  induction 1 as [|y xs ys Hsub IH|y xs ys Hsub IH]; intros Hnodup.
  - constructor.
  - inversion Hnodup; subst. apply IH. assumption.
  - inversion Hnodup; subst. constructor; [|apply IH; assumption].
    intros Hin. apply H1. exact (Subseq_in _ _ Hsub _ Hin).
Qed.

Lemma Subseq_length {A : Type} (xs ys : list A) :
  Subseq xs ys -> (length xs <= length ys)%nat.
Proof. induction 1; cbn; lia. Qed.

(* ================================================================== *)
(** * One call of [pullUserToGuild] *)
(* ================================================================== *)

Section PullOne.

Variable net : Net.

Ltac run_monad :=
  unfold pullUserToGuild, bind, try_catch, throw, ret, lift, store_get,
    date_now, fetch, record; cbn [fst snd userTokens clock trace].

(** No token is stored for the user: rejected after the lookup. *)
Lemma pull_missing (userId : Key) (w : World) :
  TokenMap.get userId (userTokens w) = None ->
  pullUserToGuild net userId w
  = (Throw "No access token stored for this user", record (EvGet userId) w).
Proof.
  intros Hget. run_monad. rewrite Hget. reflexivity.
Qed.

(** The stored token is expired: rejected after the lookup and the clock
    read, with no request issued. *)
Lemma pull_expired (userId : Key) (w : World) (tokenData : TokenData) :
  TokenMap.get userId (userTokens w) = Some tokenData ->
  js_ge (Fin (clock w)) (expires_at tokenData) = true ->
  pullUserToGuild net userId w
  = (Throw "Access token expired", record (EvGet userId) w).
Proof.
  intros Hget Hexp. run_monad. rewrite Hget. cbn [userTokens clock trace].
  rewrite Hexp. reflexivity.
Qed.

(** The stored token is not expired, but the key cannot be put into the
    URL: the conversion throws, in the [try] and again in the [catch], and
    no request is issued. *)
Lemma pull_unprintable (userId : Key) (w : World) (tokenData : TokenData)
      (message : string) :
  TokenMap.get userId (userTokens w) = Some tokenData ->
  js_ge (Fin (clock w)) (expires_at tokenData) = false ->
  js_to_string (key_value userId) = Throw message ->
  pullUserToGuild net userId w = (Throw message, record (EvGet userId) w).
Proof.
  intros Hget Hexp Hprint. run_monad. rewrite Hget.
  cbn [userTokens clock trace]. rewrite Hexp, Hprint. reflexivity.
Qed.

(** The stored token is not expired and the key can be put into the URL:
    exactly one request goes out, and the result is read off its answer. *)
Lemma pull_live (userId : Key) (w : World) (tokenData : TokenData)
      (text : string) :
  TokenMap.get userId (userTokens w) = Some tokenData ->
  js_ge (Fin (clock w)) (expires_at tokenData) = false ->
  js_to_string (key_value userId) = Ok text ->
  let req := PutMember (key_value userId) (access_token tokenData) in
  let w1 := record (EvGet userId) w in
  pullUserToGuild net userId w
  = (pull_answer (net w1 req),
     mkWorld (userTokens w) (clock w + Z.of_nat (elapsed (net w1 req)))
             (trace w ++ [EvGet userId; EvFetch req])).
Proof.
  intros Hget Hexp Hprint req w1. subst req w1. run_monad. rewrite Hget.
  cbn [userTokens clock trace]. rewrite Hexp, Hprint. unfold pull_answer.
  destruct (outcome _) as [response|e].
  - destruct (negb (ok response)).
    + destruct (get_prop _ _) as [m|e]; cbn [rbind];
        [destruct (js_to_string (js_or _ _)); cbn [rbind]|];
        cbn [userTokens clock trace]; rewrite <- app_assoc; reflexivity.
    + destruct (status response =? 201);
        [|destruct (status response =? 204)];
        cbn [userTokens clock trace]; rewrite <- app_assoc; reflexivity.
  - cbn [userTokens clock trace]. rewrite <- app_assoc. reflexivity.
Qed.

(** All cases together: the store is only read, the clock does not go
    back, and the trace grows by the lookup and at most one request, which
    is for this user and only if the token was not expired. *)
Lemma pull_frame (userId : Key) (w : World) :
  let '(_, w') := pullUserToGuild net userId w in
  userTokens w' = userTokens w /\
  clock w <= clock w' /\
  (trace w' = (trace w ++ [EvGet userId])%list \/
   exists tokenData,
     TokenMap.get userId (userTokens w) = Some tokenData /\
     js_ge (Fin (clock w)) (expires_at tokenData) = false /\
     trace w' = (trace w ++ [EvGet userId;
                             EvFetch (PutMember (key_value userId)
                                        (access_token tokenData))])%list).
Proof.
  destruct (TokenMap.get userId (userTokens w)) as [tokenData|] eqn:Hget.
  - destruct (js_ge (Fin (clock w)) (expires_at tokenData)) eqn:Hexp.
    + rewrite (pull_expired _ _ _ Hget Hexp). cbn. repeat split; auto; lia.
    + destruct (js_to_string (key_value userId)) as [text|e] eqn:Hprint.
      * rewrite (pull_live _ _ _ _ Hget Hexp Hprint). cbn.
        repeat split; [lia|]. right. exists tokenData. auto.
      * rewrite (pull_unprintable _ _ _ _ Hget Hexp Hprint). cbn.
        repeat split; auto; lia.
  - rewrite (pull_missing _ _ Hget). cbn. repeat split; auto; lia.
Qed.

End PullOne.

(* ================================================================== *)
(** * The loop of [/pull] *)
(* ================================================================== *)

Section PullLoop.

Variable net : Net.

Lemma pull_each_cons (userId : Key) (rest : list Key) (results : Results)
      (w : World) :
  pull_each net (userId :: rest) results w
  = let '(res, w1) := pullUserToGuild net userId w in
    match turn userId res results with
    | Ok results' => pull_each net rest results' w1
    | Throw e => (Throw e, w1)
    end.
Proof.
  cbn [pull_each]. unfold bind at 1. unfold try_catch at 1. unfold bind at 1.
  destruct (pullUserToGuild net userId w) as [[result|e] w1]; cbn [turn].
  - reflexivity.
  - unfold bind, lift, ret.
    destruct (error_line (key_value userId) e); reflexivity.
Qed.

Lemma pull_each_app (before after : list Key) :
  forall (results : Results) (w : World),
    pull_each net (before ++ after) results w
    = match pull_each net before results w with
      | (Ok r1, w1) => pull_each net after r1 w1
      | (Throw e, w1) => (Throw e, w1)
      end.
Proof.
  induction before as [|userId before IH]; intros results w.
  - reflexivity.
  - rewrite <- app_comm_cons, !pull_each_cons.
    destruct (pullUserToGuild net userId w) as [res w1].
    destruct (turn userId res results); [apply IH|reflexivity].
Qed.

(** One turn never throws for a key that can be put into a template. *)
Lemma turn_printable (userId : Key) (res : Result string) (results : Results) :
  printable (key_value userId) = true ->
  exists results', turn userId res results = Ok results'.
Proof.
  unfold printable, turn, error_line. intros Hprint.
  destruct res; [eauto|].
  destruct (js_to_string (key_value userId)); [cbn; eauto|discriminate].
Qed.

(** With keys that can all be put into a template, the loop never throws:
    it runs to the end of the list. *)
Lemma pull_each_returns (storedUsers : list Key) :
  (forall k, In k storedUsers -> printable (key_value k) = true) ->
  forall (results : Results) (w : World),
    exists r' w', pull_each net storedUsers results w = (Ok r', w').
Proof.
  induction storedUsers as [|userId rest IH]; intros Hprint results w.
  - exists results, w. reflexivity.
  - rewrite pull_each_cons.
    destruct (pullUserToGuild net userId w) as [res w1].
    destruct (turn_printable userId res results) as (r1 & ->);
      [apply Hprint; left; reflexivity|].
    apply IH. intros k Hin. apply Hprint. right. exact Hin.
Qed.

(** Whether it finishes or throws, the loop only reads the store, writes
    nothing, and the clock does not go back. *)
Lemma pull_each_frame (storedUsers : list Key) :
  forall (results : Results) (res : Result Results) (w w' : World),
    pull_each net storedUsers results w = (res, w') ->
    userTokens w' = userTokens w /\ clock w <= clock w' /\
    exists tr, trace w' = (trace w ++ tr)%list /\ writes tr = [].
Proof.
  induction storedUsers as [|userId rest IH]; intros results res w w' Hrun.
  - cbn in Hrun. unfold ret in Hrun. inversion Hrun; subst.
    split; [auto|]. split; [lia|]. exists []. rewrite app_nil_r. auto.
  - rewrite pull_each_cons in Hrun.
    pose proof (pull_frame net userId w) as Hstep.
    destruct (pullUserToGuild net userId w) as [r1 w1].
    destruct Hstep as (Hstore & Hclock & Htrace).
    assert (Hw1 : exists tr, trace w1 = (trace w ++ tr)%list /\ writes tr = []).
    { destruct Htrace as [->|(td & _ & _ & ->)]; eexists; split;
        reflexivity. }
    destruct (turn userId r1 results) as [r2|e].
    + destruct (IH _ _ _ _ Hrun) as (Hstore' & Hclock' & tr' & Htr' & Hw').
      split; [congruence|]. split; [lia|].
      destruct Hw1 as (tr1 & Htr1 & Hwr1).
      exists (tr1 ++ tr')%list. rewrite Htr', Htr1, app_assoc.
      split; [reflexivity|]. unfold writes in *.
      rewrite flat_map_app, Hwr1, Hw'. reflexivity.
    + inversion Hrun; subst. split; [exact Hstore|]. split; [exact Hclock|].
      exact Hw1.
Qed.

(** A token that is expired stays expired while the clock moves on. *)
Lemma js_ge_later (c c' : Z) (e : JsNum) :
  c <= c' -> js_ge (Fin c) e = true -> js_ge (Fin c') e = true.
Proof.
  destruct e as [z|]; cbn; [|discriminate].
  rewrite !Z.leb_le. lia.
Qed.

(** A token that is live now was live before. *)
Lemma js_ge_earlier (c c' : Z) (e : JsNum) :
  c <= c' -> js_ge (Fin c') e = false -> js_ge (Fin c) e = false.
Proof.
  destruct e as [z|]; cbn; [|reflexivity].
  rewrite !Z.leb_gt. lia.
Qed.

(** The trace of a loop that finishes: every user of the list is looked
    up, in order; the requests are the add-member requests of some of
    these users, in order, each with the token stored for the user, which
    is not expired when the loop starts. *)
Lemma pull_each_trace (storedUsers : list Key) :
  forall (results r' : Results) (w0 w w' : World),
    userTokens w = userTokens w0 -> clock w0 <= clock w ->
    pull_each net storedUsers results w = (Ok r', w') ->
    exists tr sent,
      trace w' = (trace w ++ tr)%list /\
      pulled tr = storedUsers /\
      Subseq sent storedUsers /\
      requests tr = map (member_request (userTokens w0)) sent /\
      forall k, In k sent -> expired_in w0 k = false.
Proof.
  induction storedUsers as [|u rest IH];
    intros results r' w0 w w' Hstore Hclock Hrun.
  - cbn in Hrun. unfold ret in Hrun. inversion Hrun; subst.
    exists [], []. rewrite app_nil_r. cbn.
    repeat split; auto using @Subseq_nil. intros k [].
  - rewrite pull_each_cons in Hrun.
    pose proof (pull_frame net u w) as Hstep.
    destruct (pullUserToGuild net u w) as [res w1].
    destruct Hstep as (Hs & Hc & Htrace).
    destruct (turn u res results) as [r1|e]; [|discriminate].
    destruct (IH _ _ w0 _ _ (eq_trans Hs Hstore) (Z.le_trans _ _ _ Hclock Hc)
                 Hrun) as (tr & sent & Htr & Hpulled & Hsub & Hreq & Hlive).
    unfold pulled, requests in *.
    destruct Htrace as [Htrace | (td & Hget & Hnow & Htrace)].
    + exists (EvGet u :: tr), sent. rewrite Htr, Htrace, <- app_assoc.
      cbn [flat_map app]. rewrite Hpulled.
      repeat split; auto. apply Subseq_skip. exact Hsub.
    + exists (EvGet u :: EvFetch (PutMember (key_value u) (access_token td))
                :: tr), (u :: sent).
      rewrite Htr, Htrace, <- app_assoc. cbn [flat_map app map].
      rewrite Hpulled, Hreq. rewrite Hstore in Hget.
      unfold member_request at 2. rewrite Hget.
      repeat split; auto; [apply Subseq_take; exact Hsub|].
      intros k [<-|Hin]; [|exact (Hlive k Hin)].
      unfold expired_in. rewrite Hget. eapply js_ge_earlier; eauto.
Qed.

(** The results object after a loop that finishes: [total] is untouched,
    [errors] only grows at its end, [failed] counts the new error lines,
    and the three counters together grow by at most one per user. *)
Lemma pull_each_results (storedUsers : list Key) :
  forall (results r' : Results) (w w' : World),
    pull_each net storedUsers results w = (Ok r', w') ->
    total r' = total results /\
    (exists lines,
        errors r' = (errors results ++ lines)%list /\
        failed r' = (failed results + length lines)%nat) /\
    (added results <= added r')%nat /\
    (already_member results <= already_member r')%nat /\
    (counted r' <= counted results + length storedUsers)%nat.
Proof.
  induction storedUsers as [|u rest IH]; intros results r' w w' Hrun.
  - cbn in Hrun. unfold ret in Hrun. inversion Hrun; subst.
    repeat split; try lia. exists []. rewrite app_nil_r. cbn. split; [auto|lia].
  - rewrite pull_each_cons in Hrun.
    destruct (pullUserToGuild net u w) as [res w1].
    destruct (turn u res results) as [r1|e] eqn:Hturn; [|discriminate].
    destruct (IH _ _ _ _ Hrun) as (Htotal & (lines & Herr & Hfailed) & Ha & Hm & Hc).
    clear IH Hrun. unfold counted in *. cbn [length].
    destruct res as [result|message]; cbn [turn] in Hturn.
    + injection Hturn as <-. unfold count_result in *.
      destruct (result =? "added")%string;
        [|destruct (result =? "already_member")%string];
        cbn [total added already_member failed errors] in *;
        (repeat split; try lia; exists lines; split; [auto|lia]).
    + destruct (error_line (key_value u) message) as [line|e];
        cbn [rbind] in Hturn; [|discriminate].
      injection Hturn as <-. unfold push_error, count_failed in *.
      cbn [total added already_member failed errors] in *.
      repeat split; try lia.
      eexists (_ :: lines). rewrite <- app_assoc in Herr. cbn [app] in Herr.
      split; [exact Herr|cbn [length]; lia].
Qed.

End PullLoop.

(* ================================================================== *)
(** * The [/pull] command as a whole *)
(* ================================================================== *)

Section PullCommand.

Variable field_ok : string * string -> bool.
Variable net : Net.

(** The command run by the authorized user: the keys are read once; with
    no key the command answers with a text; otherwise the loop runs over
    the keys, and its results object is answered if the loop finishes and
    the embed takes the fields; the error text is answered if not. *)
Lemma pull_command_authorized (w : World) :
  let storedUsers := TokenMap.keys (userTokens w) in
  pull_command field_ok net AUTHORIZED_PULLER_ID w
  = match storedUsers with
    | [] => (Ok (ReplyContent nothing_to_pull), record EvKeys w)
    | _ :: _ =>
        match pull_each net storedUsers
                (mkResults (length storedUsers) 0 0 0 []) (record EvKeys w)
        with
        | (Ok results, w') =>
            (Ok (if forallb field_ok (embed_fields results)
                 then ReplyEmbed results
                 else ReplyContent
                        "❌ An error occurred while pulling users. Check console for details."),
             w')
        | (Throw e, w') =>
            (Ok (ReplyContent
                   "❌ An error occurred while pulling users. Check console for details."),
             w')
        end
    end.
Proof.
  cbv zeta. unfold pull_command, try_catch.
  replace (negb (AUTHORIZED_PULLER_ID =? AUTHORIZED_PULLER_ID)%string)
    with false by (rewrite String.eqb_refl; reflexivity).
  unfold bind at 1. unfold store_keys at 1.
  destruct (TokenMap.keys (userTokens w)) as [|u rest] eqn:Hkeys.
  - reflexivity.
  - cbn [length Nat.eqb]. unfold bind at 1.
    destruct (pull_each net (u :: rest) _ _) as [[r|e] w']; [|reflexivity].
    destruct (forallb field_ok (embed_fields r)); reflexivity.
Qed.

(** Any other user is turned away before the store is touched. *)
Lemma pull_command_unauthorized (interactionUserId : string) (w : World) :
  interactionUserId <> AUTHORIZED_PULLER_ID ->
  pull_command field_ok net interactionUserId w
  = (Ok (ReplyContent "❌ You are not authorized to use this command."), w).
Proof.
  intros Hne. unfold pull_command, try_catch.
  apply String.eqb_neq in Hne. rewrite Hne. reflexivity.
Qed.

(** With at least one stored user, and a loop that finishes, the command
    answers from the results object of the loop. *)
Lemma pull_command_results (w w' : World) (results : Results) :
  userTokens w <> [] ->
  pull_each net (TokenMap.keys (userTokens w))
    (mkResults (length (TokenMap.keys (userTokens w))) 0 0 0 [])
    (record EvKeys w) = (Ok results, w') ->
  pull_command field_ok net AUTHORIZED_PULLER_ID w
  = (Ok (if forallb field_ok (embed_fields results)
         then ReplyEmbed results
         else ReplyContent
                "❌ An error occurred while pulling users. Check console for details."),
     w').
Proof.
  intros Hne Hrun. rewrite pull_command_authorized. cbv zeta. rewrite Hrun.
  destruct (userTokens w) as [|[k v] rest]; [congruence|]. reflexivity.
Qed.

(** What an answered results object comes from: the loop over the keys,
    started from zeroed counters; and the embed took its fields. *)
Lemma pull_reply_inv (w w' : World) (results : Results) :
  pull_command field_ok net AUTHORIZED_PULLER_ID w
  = (Ok (ReplyEmbed results), w') ->
  pull_each net (TokenMap.keys (userTokens w))
    (mkResults (length (TokenMap.keys (userTokens w))) 0 0 0 [])
    (record EvKeys w) = (Ok results, w') /\
  forallb field_ok (embed_fields results) = true.
Proof.
  rewrite pull_command_authorized. cbv zeta.
  destruct (TokenMap.keys (userTokens w)) as [|u rest]; [discriminate|].
  destruct (pull_each net (u :: rest) _ _) as [[r|e] w1]; [|discriminate].
  destruct (forallb field_ok (embed_fields r)) eqn:Hfields; [|discriminate].
  intros H. injection H as <- <-. auto.
Qed.

(** Whoever calls it, the command never throws and only reads the store. *)
Lemma pull_command_frame (interactionUserId : string) (w : World) :
  exists reply w',
    pull_command field_ok net interactionUserId w = (Ok reply, w') /\
    userTokens w' = userTokens w /\
    exists tr, trace w' = (trace w ++ tr)%list /\ writes tr = [].
Proof.
  destruct (String.eqb_spec interactionUserId AUTHORIZED_PULLER_ID) as [->|Hne].
  - rewrite pull_command_authorized. cbv zeta.
    destruct (TokenMap.keys (userTokens w)) as [|u rest] eqn:Hkeys.
    + eexists _, _. split; [reflexivity|]. cbn. split; [auto|].
      exists [EvKeys]. auto.
    + pose proof (pull_each_frame net (u :: rest)
                    (mkResults (length (u :: rest)) 0 0 0 [])) as Hframe.
      destruct (pull_each net (u :: rest) _ (record EvKeys w))
        as [res w'] eqn:Hrun.
      destruct (Hframe _ _ _ Hrun) as (Hs & _ & tr & Htr & Hw).
      assert (Hworld : userTokens w' = userTokens w /\
                exists tr', trace w' = (trace w ++ tr')%list /\ writes tr' = []).
      { split; [exact Hs|]. exists (EvKeys :: tr).
        cbn [record trace] in Htr. rewrite Htr, <- app_assoc.
        split; [reflexivity|exact Hw]. }
      destruct res as [r|e]; eexists _, w'; (split; [reflexivity|exact Hworld]).
  - rewrite (pull_command_unauthorized _ _ Hne).
    eexists _, _. split; [reflexivity|]. split; [auto|].
    exists []. rewrite app_nil_r. auto.
Qed.

End PullCommand.

(* ================================================================== *)
(** * Batch admission: the claims *)
(* ================================================================== *)

Section BatchClaims.

Variable field_ok : string * string -> bool.
Variable net : Net.

(** A request of the trace is among its requests. *)
Lemma fetch_in_requests (req : Request) (tr : list Event) :
  In (EvFetch req) tr -> In req (requests tr).
Proof.
  intros Hin. unfold requests. apply in_flat_map.
  exists (EvFetch req). split; [exact Hin|left; reflexivity].
Qed.


(** A user of the list whose token is expired when the loop starts ends up
    in [errors]. *)
Lemma pull_each_expired_line
      (storedUsers : list Key) (userId : Key) (tokenData : TokenData)
      (text : string) (results r' : Results) (w w' : World) :
  In userId storedUsers ->
  TokenMap.get userId (userTokens w) = Some tokenData ->
  js_ge (Fin (clock w)) (expires_at tokenData) = true ->
  js_to_string (key_value userId) = Ok text ->
  pull_each net storedUsers results w = (Ok r', w') ->
  In ("<@" ++ text ++ ">: Access token expired") (errors r') /\
  (S (failed results) <= failed r')%nat.
Proof.
  intros Hin Hget Hexp Hprint Hrun.
  destruct (in_split _ _ Hin) as (before & after & ->).
  rewrite pull_each_app in Hrun.
  destruct (pull_each net before results w) as [[r1|e] w1] eqn:Hbefore;
    [|discriminate].
  destruct (pull_each_frame _ _ _ _ _ _ Hbefore) as (Hstore & Hclock & _).
  rewrite pull_each_cons, (pull_expired net userId w1 tokenData) in Hrun;
    [|rewrite Hstore; exact Hget|eapply js_ge_later; eauto].
  cbn [turn] in Hrun. unfold error_line in Hrun. rewrite Hprint in Hrun.
  cbn [rbind] in Hrun.
  destruct (pull_each_results _ _ _ _ _ _ Hbefore)
    as (_ & (lines1 & _ & Hfailed1) & _).
  destruct (pull_each_results _ _ _ _ _ _ Hrun)
    as (_ & (lines & Herr & Hfailed) & _).
  cbn [push_error count_failed failed errors] in *.
  split; [|lia].
  rewrite Herr. apply in_or_app. left. apply in_or_app. right. left.
  reflexivity.
Qed.

(** Every user of the list whose token is expired when the loop starts
    is counted in [failed]. *)
Lemma pull_each_failed_ge_expired (storedUsers : list Key) :
  forall (results r' : Results) (w0 w w' : World),
    userTokens w = userTokens w0 -> clock w0 <= clock w ->
    pull_each net storedUsers results w = (Ok r', w') ->
    (failed results + length (filter (expired_in w0) storedUsers)
     <= failed r')%nat.
Proof.
  induction storedUsers as [|u rest IH];
    intros results r' w0 w w' Hstore Hclock Hrun.
  - cbn in Hrun. unfold ret in Hrun. inversion Hrun; subst. cbn. lia.
  - rewrite pull_each_cons in Hrun.
    pose proof (pull_frame net u w) as Hstep.
    assert (Hmono : forall res r1,
               turn u res results = Ok r1 -> (failed results <= failed r1)%nat).
    { intros res r1 Hturn. destruct res as [result|message]; cbn [turn] in Hturn.
      - injection Hturn as <-. unfold count_result.
        destruct (result =? "added")%string;
          [|destruct (result =? "already_member")%string]; cbn [failed]; lia.
      - destruct (error_line _ _); cbn [rbind] in Hturn; [|discriminate].
        injection Hturn as <-. cbn [push_error count_failed failed]. lia. }
    cbn [filter]. unfold expired_in at 1.
    destruct (TokenMap.get u (userTokens w0)) as [td|] eqn:Hget.
    + destruct (js_ge (Fin (clock w0)) (expires_at td)) eqn:Hexp.
      * rewrite <- Hstore in Hget.
        rewrite (pull_expired net u w td Hget
                   (js_ge_later _ _ _ Hclock Hexp)) in Hrun, Hstep.
        destruct Hstep as (Hs & Hc & _).
        cbn [turn] in Hrun.
        destruct (error_line (key_value u) "Access token expired");
          cbn [rbind] in Hrun; [|discriminate].
        apply (IH _ _ w0) in Hrun;
          cbn [push_error count_failed failed] in *;
          cbn [length]; [lia|congruence|lia].
      * destruct (pullUserToGuild net u w) as [res w1].
        destruct Hstep as (Hs & Hc & _).
        destruct (turn u res results) as [r1|e] eqn:Hturn; [|discriminate].
        apply (IH _ _ w0) in Hrun; [|congruence|lia].
        pose proof (Hmono _ _ Hturn). lia.
    + destruct (pullUserToGuild net u w) as [res w1].
      destruct Hstep as (Hs & Hc & _).
      destruct (turn u res results) as [r1|e] eqn:Hturn; [|discriminate].
      apply (IH _ _ w0) in Hrun; [|congruence|lia].
      pose proof (Hmono _ _ Hturn). lia.
Qed.

(** When every success status of the gateway is one of the two documented
    ones, each user lands in exactly one counter. *)
Lemma pull_each_counts_documented (storedUsers : list Key) :
  (forall w req response,
      outcome (net w req) = Ok response -> ok response = true ->
      status response = 201 \/ status response = 204) ->
  forall (results r' : Results) (w w' : World),
    pull_each net storedUsers results w = (Ok r', w') ->
    counted r' = (counted results + length storedUsers)%nat.
Proof.
  intros Hdoc.
  induction storedUsers as [|u rest IH]; intros results r' w w' Hrun.
  - cbn in Hrun. unfold ret in Hrun. inversion Hrun; subst. cbn. lia.
  - rewrite pull_each_cons in Hrun.
    assert (Hturn : forall res w1 r1,
               pullUserToGuild net u w = (res, w1) ->
               turn u res results = Ok r1 ->
               counted r1 = S (counted results)).
    { intros res w1 r1 Hpull Hturn.
      destruct res as [result|message]; cbn [turn] in Hturn.
      2:{ destruct (error_line _ _); cbn [rbind] in Hturn; [|discriminate].
          injection Hturn as <-. unfold counted; cbn; lia. }
      injection Hturn as <-.
      destruct (TokenMap.get u (userTokens w)) as [td|] eqn:Hget;
        [|rewrite (pull_missing _ _ _ Hget) in Hpull; discriminate].
      destruct (js_ge (Fin (clock w)) (expires_at td)) eqn:Hexp;
        [rewrite (pull_expired _ _ _ _ Hget Hexp) in Hpull; discriminate|].
      destruct (js_to_string (key_value u)) as [text|e] eqn:Hprint;
        [|rewrite (pull_unprintable _ _ _ _ _ Hget Hexp Hprint) in Hpull;
          discriminate].
      rewrite (pull_live _ _ _ _ _ Hget Hexp Hprint) in Hpull.
      injection Hpull as Hans _. unfold pull_answer in Hans.
      destruct (outcome _) as [response|e] eqn:Hout; [|discriminate].
      destruct (ok response) eqn:Hok; cbn [negb] in Hans.
      2:{ destruct (get_prop _ _); cbn [rbind] in Hans; [|discriminate].
          destruct (js_to_string _); discriminate. }
      destruct (Hdoc _ _ _ Hout Hok) as [Hst|Hst]; rewrite Hst in Hans;
        cbn in Hans; injection Hans as <-; unfold counted; cbn; lia. }
    destruct (pullUserToGuild net u w) as [res w1].
    destruct (turn u res results) as [r1|e] eqn:Hr1; [|discriminate].
    rewrite (IH _ _ _ _ Hrun), (Hturn res w1 r1 eq_refl Hr1). cbn [length]. lia.
Qed.

(** C2. A stored token whose [expires_at] is not after the current time is
    rejected by [pullUserToGuild] right after the lookup, with the message
    "Access token expired" and no request issued.  In a store whose keys
    can all be written into a template, the loop of [/pull] then finishes
    over all the keys: every stored user is looked up, in order; the
    requests of the run are the add-member requests of users other than
    this one; the user is counted as failed and the line
    "<@id>: Access token expired" is among the errors.  The command
    answers with this results object when the embed takes its fields, and
    with the error text when it does not. *)
Theorem expired_token_rejected_before_fetch
        (w : World) (userId : Key) (tokenData : TokenData) (e : Z)
        (text : string) :
  TokenMap.get userId (userTokens w) = Some tokenData ->
  expires_at tokenData = Fin e ->
  e <= clock w ->
  (forall k, In k (TokenMap.keys (userTokens w)) ->
             printable (key_value k) = true) ->
  js_to_string (key_value userId) = Ok text ->
  pullUserToGuild net userId w
  = (Throw "Access token expired", record (EvGet userId) w) /\
  exists results w' tr sent,
    pull_each net (TokenMap.keys (userTokens w))
      (mkResults (length (TokenMap.keys (userTokens w))) 0 0 0 [])
      (record EvKeys w) = (Ok results, w') /\
    pull_command field_ok net AUTHORIZED_PULLER_ID w
    = (Ok (if forallb field_ok (embed_fields results)
           then ReplyEmbed results
           else ReplyContent
                  "❌ An error occurred while pulling users. Check console for details."),
       w') /\
    trace w' = (trace w ++ EvKeys :: tr)%list /\
    pulled tr = TokenMap.keys (userTokens w) /\
    Subseq sent (TokenMap.keys (userTokens w)) /\
    requests tr = map (member_request (userTokens w)) sent /\
    ~ In userId sent /\
    ((forall otherId,
         In otherId (TokenMap.keys (userTokens w)) ->
         key_value otherId = key_value userId -> otherId = userId) ->
     forall token, ~ In (EvFetch (PutMember (key_value userId) token)) tr) /\
    In ("<@" ++ text ++ ">: Access token expired") (errors results) /\
    (1 <= failed results)%nat.
Proof.
  intros Hget He Hle Hkeys Hprint.
  pose proof (get_some_in_keys _ _ _ Hget) as Hin.
  assert (Hexp : js_ge (Fin (clock w)) (expires_at tokenData) = true).
  { rewrite He. cbn. apply Z.leb_le. exact Hle. }
  split; [exact (pull_expired net _ _ _ Hget Hexp)|].
  assert (Hne : userTokens w <> []).
  { intros Hnil. rewrite Hnil in Hin. exact Hin. }
  destruct (pull_each_returns net _ Hkeys
              (mkResults (length (TokenMap.keys (userTokens w))) 0 0 0 [])
              (record EvKeys w)) as (results & w' & Hrun).
  destruct (pull_each_trace net _ _ _ w (record EvKeys w) _ eq_refl (Z.le_refl _) Hrun)
    as (tr & sent & Htr & Hpulled & Hsub & Hreq & Hlive).
  destruct (pull_each_expired_line _ _ _ _ _ _ (record EvKeys w) _
              Hin Hget Hexp Hprint Hrun) as (Hline & Hfailed).
  assert (Hnot : ~ In userId sent).
  { intros Hsent. apply Hlive in Hsent. unfold expired_in in Hsent.
    rewrite Hget, Hexp in Hsent. discriminate. }
  exists results, w', tr, sent.
  split; [exact Hrun|].
  split; [exact (pull_command_results field_ok net _ _ _ Hne Hrun)|].
  split; [cbn [record trace] in Htr; rewrite Htr, <- app_assoc; reflexivity|].
  split; [exact Hpulled|]. split; [exact Hsub|]. split; [exact Hreq|].
  split; [exact Hnot|].
  split; [|split; [exact Hline|cbn [failed] in Hfailed; lia]].
  intros Hsame token Hfetch. apply fetch_in_requests in Hfetch.
  rewrite Hreq in Hfetch. apply in_map_iff in Hfetch as (k & Hk & Hsent).
  unfold member_request in Hk. injection Hk as Hvalue _.
  apply Hnot. rewrite <- (Hsame k (Subseq_in _ _ Hsub k Hsent) Hvalue).
  exact Hsent.
Qed.


(** C8, as the code has it.  With an empty token store the authorized
    [/pull] answers at once with the text "No users have verified yet",
    which is a reply of its own kind (neither a results object nor the
    error text); the only thing it has done is read the keys: no request
    is issued and nothing is written. *)
Theorem empty_store_nothing_to_pull (w : World) :
  userTokens w = [] ->
  pull_command field_ok net AUTHORIZED_PULLER_ID w
  = (Ok (ReplyContent nothing_to_pull), record EvKeys w) /\
  requests (trace (record EvKeys w)) = requests (trace w) /\
  userTokens (record EvKeys w) = [].
Proof.
  intros Hempty. rewrite pull_command_authorized, Hempty. cbn [TokenMap.keys map].
  repeat split; auto.
  unfold requests, record. cbn [trace]. rewrite flat_map_app. cbn.
  apply app_nil_r.
Qed.

(** C9. Whoever runs [/pull], and whatever the gateway answers, the token
    store after the command is the store before it: same entries in the
    same order, hence the same token for every user; the command's part
    of the trace has no write. *)
Theorem pull_never_modifies_store (interactionUserId : string) (w : World) :
  let w' := snd (pull_command field_ok net interactionUserId w) in
  userTokens w' = userTokens w /\
  (forall userId,
      TokenMap.get userId (userTokens w')
      = TokenMap.get userId (userTokens w)) /\
  exists tr, trace w' = (trace w ++ tr)%list /\ writes tr = [].
Proof.
  destruct (pull_command_frame field_ok net interactionUserId w)
    as (reply & w' & Hcmd & Hstore & Htr).
  rewrite Hcmd. cbn [snd]. repeat split; auto.
  intros userId. rewrite Hstore. reflexivity.
Qed.

End BatchClaims.

(** C1, at the failing input.  One stored user with a live token, and a
    gateway that answers the add-member request with 200: the command
    answers [total = 1] with all three counters at zero, so [total] is not
    [added + already_member + failed]. *)
Theorem other_success_status_is_not_counted :
  fst (pull_command DiscordJs.field_ok Fixtures.net_200 AUTHORIZED_PULLER_ID
         Fixtures.one_user)
  = Ok (ReplyEmbed (mkResults 1 0 0 0 [])) /\
  total (mkResults 1 0 0 0 []) <> counted (mkResults 1 0 0 0 []).
Proof.
  split; [vm_compute; reflexivity|]. cbn. discriminate.
Qed.

Lemma expired_token_rejected_before_fetch_witness :
  pullUserToGuild Fixtures.net_abc (KStr "b") Fixtures.stale_b
  = (Throw "Access token expired",
     record (EvGet (KStr "b")) Fixtures.stale_b) /\
  exists results w' tr sent,
    pull_each Fixtures.net_abc (TokenMap.keys (userTokens Fixtures.stale_b))
      (mkResults (length (TokenMap.keys (userTokens Fixtures.stale_b))) 0 0 0 [])
      (record EvKeys Fixtures.stale_b) = (Ok results, w') /\
    pull_command DiscordJs.field_ok Fixtures.net_abc AUTHORIZED_PULLER_ID
      Fixtures.stale_b
    = (Ok (if forallb DiscordJs.field_ok (embed_fields results)
           then ReplyEmbed results
           else ReplyContent
                  "❌ An error occurred while pulling users. Check console for details."),
       w') /\
    trace w' = (trace Fixtures.stale_b ++ EvKeys :: tr)%list /\
    pulled tr = TokenMap.keys (userTokens Fixtures.stale_b) /\
    Subseq sent (TokenMap.keys (userTokens Fixtures.stale_b)) /\
    requests tr = map (member_request (userTokens Fixtures.stale_b)) sent /\
    ~ In (KStr "b") sent /\
    ((forall otherId,
         In otherId (TokenMap.keys (userTokens Fixtures.stale_b)) ->
         key_value otherId = key_value (KStr "b") ->
         otherId = KStr "b") ->
     forall token,
       ~ In (EvFetch (PutMember (key_value (KStr "b")) token)) tr) /\
    In ("<@" ++ "b" ++ ">: Access token expired") (errors results) /\
    (1 <= failed results)%nat.
Proof.
  apply (expired_token_rejected_before_fetch DiscordJs.field_ok
           Fixtures.net_abc Fixtures.stale_b (KStr "b")
           (Fixtures.grant "tb" 5) 5 "b").
  - reflexivity.
  - reflexivity.
  - cbn. lia.
  - intros k [<-|[<-|[<-|[]]]]; reflexivity.
  - reflexivity.
Defined.

(** That run: "a" is added, "b" is rejected without a request, "c" is
    already a member. *)
Example stale_token_run :
  pull_command DiscordJs.field_ok Fixtures.net_abc AUTHORIZED_PULLER_ID
    Fixtures.stale_b
  = (Ok (ReplyEmbed (mkResults 3 1 1 1 ["<@b>: Access token expired"])),
     mkWorld (userTokens Fixtures.stale_b) 12
       [EvKeys;
        EvGet (KStr "a"); EvFetch (PutMember (JStr "a") (JStr "ta"));
        EvGet (KStr "b");
        EvGet (KStr "c"); EvFetch (PutMember (JStr "c") (JStr "tc"))]).
Proof. vm_compute. reflexivity. Qed.


(** The example of the specification: three users, the gateway call of the
    middle one throws; two successes and one failure come back. *)
Example three_users_middle_throws :
  fst (pull_command DiscordJs.field_ok Fixtures.net_abc AUTHORIZED_PULLER_ID
         Fixtures.three_users)
  = Ok (ReplyEmbed (mkResults 3 1 1 1 ["<@b>: socket hang up"])).
Proof. vm_compute. reflexivity. Qed.

(** The fields of the embed for that run. *)
Example embed_of_three_users :
  embed_fields (mkResults 3 1 1 1 ["<@b>: socket hang up"])
  = [("📊 Total Users", "3"); ("✅ Successfully Added", "1");
     ("ℹ️ Already Members", "1"); ("❌ Failed", "1");
     ("⚠️ Errors", "<@b>: socket hang up")] /\
  embed_fields (mkResults 3 3 0 0 [])
  = [("📊 Total Users", "3"); ("✅ Successfully Added", "3");
     ("ℹ️ Already Members", "0"); ("❌ Failed", "0")] /\
  forallb DiscordJs.field_ok
    (embed_fields (mkResults 3 1 1 1 ["<@b>: socket hang up"])) = true.
Proof. repeat split; vm_compute; reflexivity. Qed.

(** When the gateway's error text is longer than an embed field may be,
    the loop still goes over the three users, but the embed is refused and
    the command answers with the error text. *)
Example long_error_hides_results :
  pull_command DiscordJs.field_ok MoreFixtures.net_long_error
    AUTHORIZED_PULLER_ID Fixtures.three_users
  = (Ok (ReplyContent
           "❌ An error occurred while pulling users. Check console for details."),
     mkWorld (userTokens Fixtures.three_users) 13
       [EvKeys;
        EvGet (KStr "a"); EvFetch (PutMember (JStr "a") (JStr "ta"));
        EvGet (KStr "b"); EvFetch (PutMember (JStr "b") (JStr "tb"));
        EvGet (KStr "c"); EvFetch (PutMember (JStr "c") (JStr "tc"))]).
Proof. vm_compute. reflexivity. Qed.

(** A key that cannot be written into the error line ends the loop where
    it stands: the user after it is not looked up. *)
Example unprintable_key_ends_loop :
  pull_command DiscordJs.field_ok Fixtures.net_abc AUTHORIZED_PULLER_ID
    MoreFixtures.odd_stored
  = (Ok (ReplyContent
           "❌ An error occurred while pulling users. Check console for details."),
     mkWorld (userTokens MoreFixtures.odd_stored) 10
       [EvKeys; EvGet (to_key 2 MoreFixtures.odd)]).
Proof. vm_compute. reflexivity. Qed.

(** C8, as the claim states it, fails: on the empty store the answer is not
    the results object with all counters at zero. *)
Lemma empty_store_reply_is_not_results :
  fst (pull_command DiscordJs.field_ok Fixtures.net_200 AUTHORIZED_PULLER_ID
         Fixtures.nobody)
  <> Ok (ReplyEmbed (mkResults 0 0 0 0 [])).
Proof. vm_compute. discriminate. Qed.

Lemma empty_store_nothing_to_pull_witness :
  pull_command DiscordJs.field_ok Fixtures.net_200 AUTHORIZED_PULLER_ID
    Fixtures.nobody
  = (Ok (ReplyContent nothing_to_pull), record EvKeys Fixtures.nobody) /\
  requests (trace (record EvKeys Fixtures.nobody))
  = requests (trace Fixtures.nobody) /\
  userTokens (record EvKeys Fixtures.nobody) = [].
Proof.
  apply (empty_store_nothing_to_pull DiscordJs.field_ok Fixtures.net_200
           Fixtures.nobody).
  reflexivity.
Defined.

(* ================================================================== *)
(** * The OAuth callback *)
(* ================================================================== *)

Section Callback.

Variable string_to_number : string -> JsNum.
Variable net : Net.
Variable WEBHOOK_URL : option string.

Ltac step_match :=
  match goal with
  | |- context [match ?x with _ => _ end] =>
      lazymatch x with
      | context [match _ with _ => _ end] => fail
      | _ => destruct x eqn:?
      end
  end.

(** A detached task never throws into the handler. *)
Lemma detached_returns (task : M unit) (w : World) :
  detached task w = (Ok tt, snd (detached task w)).
Proof.
  unfold detached, try_catch, ret.
  destruct (task w) as [[[]|e] w']; reflexivity.
Qed.

(** The callback, stage by stage.  Once the token is stored, the id of the
    user is written into a template: if that throws, the handler answers
    500 although the store has been written. *)
Lemma auth_discord_stages (reqBody : JVal) (w : World) :
  auth_discord string_to_number net WEBHOOK_URL reqBody w
  = match get_prop reqBody "code" with
    | Throw e => (Throw e, w)
    | Ok code =>
        if negb (truthy code) then
          (Ok (failure 400 (JStr "No authorization code provided")), w)
        else
          match until_persisted string_to_number net code w with
          | (Throw e, w1) =>
              (Ok (failure 500
                     (js_or (JStr e)
                        (JStr "Internal server error during authentication"))),
               w1)
          | (Ok (Replied reply), w1) => (Ok reply, w1)
          | (Ok (Persisted user stored), w1) =>
              match (if stored then js_to_string (User.id user) else Ok "") with
              | Throw e =>
                  (Ok (failure 500
                         (js_or (JStr e)
                            (JStr "Internal server error during authentication"))),
                   w1)
              | Ok _ =>
                  (Ok (success_reply user), after_tasks net WEBHOOK_URL user w1)
              end
          end
    end.
Proof.
  unfold auth_discord. unfold bind at 1. unfold lift at 1.
  destruct (get_prop reqBody "code") as [code|e]; [|reflexivity].
  destruct (negb (truthy code)); [reflexivity|].
  unfold try_catch at 1. unfold until_persisted, after_tasks.
  unfold bind, lift, ret, fetch, object_ref, date_now, store_set.
  repeat (step_match; try reflexivity).
  all: repeat match goal with
              | H : detached ?t ?w0 = (_, _) |- _ =>
                  rewrite (detached_returns t w0) in H; inversion H; subst;
                  clear H
              end.
  all: cbn [snd]; try reflexivity.
Qed.

(** The exchange is answered with a non-success status: the session stops
    there, after this one request. *)
Lemma until_persisted_rejected
      (code : JVal) (w : World) (text : string) (response : Response) :
  js_to_string code = Ok text ->
  outcome (net w (TokenExchange code)) = Ok response ->
  ok response = false ->
  until_persisted string_to_number net code w
  = (rbind (json response) (fun tokenData =>
     rbind (get_prop tokenData "error_description") (fun error_description =>
     rbind (get_prop tokenData "error") (fun error =>
     Ok (Replied
           (failure 400
              (js_or error_description
                 (js_or error
                    (JStr "Failed to exchange authorization code")))))))),
     mkWorld (userTokens w)
             (clock w + Z.of_nat (elapsed (net w (TokenExchange code))))
             (trace w ++ [EvFetch (TokenExchange code)])).
Proof.
  intros Hprint Hout Hok.
  unfold until_persisted, bind, lift, ret, fetch, date_now, store_set.
  rewrite Hprint, Hout.
  destruct (json response) as [tokenData|e]; [|reflexivity].
  rewrite Hok. cbn [negb rbind].
  destruct (get_prop tokenData "error_description"); [|reflexivity].
  destruct (get_prop tokenData "error"); reflexivity.
Qed.

(** A code that cannot be sent: nothing happens. *)
Lemma until_persisted_unprintable (code : JVal) (w : World) (e : string) :
  js_to_string code = Throw e ->
  until_persisted string_to_number net code w = (Throw e, w).
Proof.
  intros Hprint. unfold until_persisted, bind, lift. rewrite Hprint.
  reflexivity.
Qed.

(** A session that does not reach [Persisted] leaves the store alone, and
    has sent the exchange request at most, and perhaps the profile request
    after it; if it has replied, the reply is a 400. *)
Lemma until_persisted_stops (code : JVal) (w w1 : World) (res : Result Stage) :
  until_persisted string_to_number net code w = (res, w1) ->
  (forall user stored, res <> Ok (Persisted user stored)) ->
  userTokens w1 = userTokens w /\
  (w1 = w \/
   trace w1 = (trace w ++ [EvFetch (TokenExchange code)])%list \/
   exists bearer,
     trace w1 = (trace w ++ [EvFetch (TokenExchange code);
                             EvFetch (GetProfile bearer)])%list) /\
  forall reply, res = Ok (Replied reply) ->
                exists error, reply = failure 400 error.
Proof.
  unfold until_persisted, bind, lift, ret, fetch, object_ref, date_now,
    store_set.
  intros Hrun Hnot. revert Hrun.
  repeat step_match; intros Hrun; inversion Hrun; subst;
    cbn [userTokens trace];
    try (exfalso; eapply Hnot; reflexivity);
    (split; [reflexivity|]);
    (split; [rewrite <- ?app_assoc; cbn [app]; eauto|]);
    intros reply Hreply; inversion Hreply; eexists; reflexivity.
Qed.

(** The world in which a session reaches [Persisted]: after the two
    requests, and after the write to the store when the exchange gave an
    access token.  The key of the write is the id of the profile; when the
    id is an array or an object, it is the one parsed from this profile
    response. *)
Lemma until_persisted_world
      (code : JVal) (w w1 : World) (user : User.t) (stored : bool) :
  until_persisted string_to_number net code w
  = (Ok (Persisted user stored), w1) ->
  exists tokenResponse tokenData access userResponse userData,
    outcome (net w (TokenExchange code)) = Ok tokenResponse /\
    ok tokenResponse = true /\
    json tokenResponse = Ok tokenData /\
    get_prop tokenData "access_token" = Ok access /\
    outcome (net (snd (fetch net (TokenExchange code) w)) (GetProfile access))
    = Ok userResponse /\
    ok userResponse = true /\
    json userResponse = Ok userData /\
    build_user userData = Ok user /\
    printable code = true /\
    stored = truthy access /\
    let wB := snd (fetch net (GetProfile access)
                     (snd (fetch net (TokenExchange code) w))) in
    (truthy access = false /\ w1 = wB \/
     truthy access = true /\
     exists refresh expires_in seconds,
       get_prop tokenData "refresh_token" = Ok refresh /\
       get_prop tokenData "expires_in" = Ok expires_in /\
       to_number string_to_number expires_in = Ok seconds /\
       w1 = snd (store_set (to_key (length (trace wB)) (User.id user))
                   (mkTokenData access refresh
                      (js_add (Fin (clock wB)) (js_mul seconds (Fin 1000))))
                   wB)).
Proof.
  unfold until_persisted, bind, lift, ret, fetch, object_ref, date_now,
    store_set, printable.
  repeat step_match; intros Hrun; inversion Hrun; subst;
    repeat match goal with
           | H : negb _ = false |- _ => apply negb_false_iff in H
           end;
    cbn [rbind snd userTokens clock trace];
    eexists _, _, _, _, _;
    do 9 (split; [eassumption || reflexivity || (symmetry; eassumption)|]);
    (split; [eassumption || reflexivity || (symmetry; eassumption)|]).
  - right. split; [assumption|]. eexists _, _, _. repeat split; eauto.
  - left. split; [assumption|reflexivity].
Qed.

(** The detached tasks only talk to the network. *)
Lemma after_tasks_store (user : User.t) (w : World) :
  userTokens (after_tasks net WEBHOOK_URL user w) = userTokens w.
Proof.
  unfold after_tasks, detached, sendToLogger, assignVerifiedRole,
    try_catch, bind, lift, ret, throw, fetch.
  repeat step_match; reflexivity.
Qed.

(** The two detached tasks: one role request for the user's id, if the id
    can be written into the URL, then one webhook request if a webhook is
    configured. *)
Lemma after_tasks_trace (user : User.t) (w : World) :
  trace (after_tasks net WEBHOOK_URL user w)
  = (trace w
       ++ (if printable (User.id user)
           then [EvFetch (PutRole (User.id user))] else [])
       ++ match WEBHOOK_URL with
          | Some _ =>
              [EvFetch (PostWebhook (User.id user)
                          (js_or (User.email user) (JStr "Not provided"))
                          (if truthy (User.verified user)
                           then "Yes" else "No")
                          (User.avatar user))]
          | None => []
          end)%list.
Proof.
  unfold after_tasks, detached, sendToLogger, assignVerifiedRole,
    try_catch, bind, lift, ret, throw, fetch, printable.
  destruct (js_to_string (User.id user)) as [text|e];
    repeat step_match; cbn [snd trace app]; rewrite <- ?app_assoc;
    rewrite ?app_nil_r; reflexivity.
Qed.

(** The session up to [Persisted] depends on the network only through the
    answers to the exchange and to the profile request. *)
Lemma until_persisted_same_net (net' : Net) (code : JVal) (w : World) :
  (forall w0 c, net' w0 (TokenExchange c) = net w0 (TokenExchange c)) ->
  (forall w0 b, net' w0 (GetProfile b) = net w0 (GetProfile b)) ->
  until_persisted string_to_number net' code w
  = until_persisted string_to_number net code w.
Proof.
  intros Hexchange Hprofile.
  unfold until_persisted, bind, lift, ret, fetch.
  destruct (js_to_string code) as [text|e]; [|reflexivity].
  rewrite Hexchange.
  destruct (outcome (net w (TokenExchange code))) as [tr|e]; [|reflexivity].
  destruct (json tr) as [td|e]; [|reflexivity].
  destruct (negb (ok tr)); [reflexivity|].
  destruct (get_prop td "access_token") as [b|e]; [|reflexivity].
  destruct (js_to_string b) as [text'|e]; [|reflexivity].
  rewrite Hprofile. reflexivity.
Qed.

(** A reply with status 200 comes from a session that reached
    [Persisted], and whose user id could be written into the log line if
    the token was stored. *)
Lemma success_inv (reqBody : JVal) (w w' : World) (reply : HttpReply) :
  auth_discord string_to_number net WEBHOOK_URL reqBody w = (Ok reply, w') ->
  reply_status reply = 200 ->
  exists code user stored w1,
    get_prop reqBody "code" = Ok code /\
    truthy code = true /\
    until_persisted string_to_number net code w
    = (Ok (Persisted user stored), w1) /\
    (stored = true -> printable (User.id user) = true) /\
    reply = success_reply user /\
    w' = after_tasks net WEBHOOK_URL user w1.
Proof.
  intros Hrun Hstatus. rewrite auth_discord_stages in Hrun.
  destruct (get_prop reqBody "code") as [code|e] eqn:Hcode; [|discriminate].
  destruct (truthy code) eqn:Htruthy; cbn [negb] in Hrun.
  - destruct (until_persisted string_to_number net code w)
      as [[[r|user stored]|e] w1] eqn:Hstage.
    + destruct (until_persisted_stops _ _ _ _ Hstage) as (_ & _ & Hr);
        [discriminate|].
      destruct (Hr r eq_refl) as (error & ->).
      injection Hrun as <- _. discriminate.
    + destruct stored; [destruct (js_to_string (User.id user)) eqn:Hprint|];
        injection Hrun as <- <-; try discriminate;
        exists code, user; eexists _, w1;
        (do 3 (split; [first [eassumption|reflexivity]|]));
        (split; [|split; reflexivity]).
      * intros _. unfold printable. rewrite Hprint. reflexivity.
      * discriminate.
    + injection Hrun as <- _. discriminate.
  - injection Hrun as <- _. discriminate.
Qed.

(** Any other reply comes from the guard on the code, from a session that
    stopped before [Persisted], or from a session that stored the token
    under an id that cannot be written into the log line. *)
Lemma failure_inv (reqBody : JVal) (w w' : World) (reply : HttpReply) :
  auth_discord string_to_number net WEBHOOK_URL reqBody w = (Ok reply, w') ->
  reply_status reply <> 200 ->
  w' = w \/
  (exists code res,
      get_prop reqBody "code" = Ok code /\
      until_persisted string_to_number net code w = (res, w') /\
      forall user stored, res <> Ok (Persisted user stored)) \/
  (exists code user,
      get_prop reqBody "code" = Ok code /\
      until_persisted string_to_number net code w
      = (Ok (Persisted user true), w') /\
      printable (User.id user) = false /\
      reply_status reply = 500).
Proof.
  intros Hrun Hstatus. rewrite auth_discord_stages in Hrun.
  destruct (get_prop reqBody "code") as [code|e] eqn:Hcode; [|discriminate].
  destruct (negb (truthy code)).
  - injection Hrun as _ <-. left. reflexivity.
  - destruct (until_persisted string_to_number net code w)
      as [[[r|user stored]|e] w1] eqn:Hstage.
    + injection Hrun as _ <-. right. left. exists code, (Ok (Replied r)).
      repeat split; auto. discriminate.
    + destruct stored; [destruct (js_to_string (User.id user)) eqn:Hprint|];
        injection Hrun as <- <-; try (elim Hstatus; reflexivity).
      right. right. exists code, user.
      do 2 (split; [first [eassumption|reflexivity]|]).
      split; [|reflexivity]. unfold printable. rewrite Hprint. reflexivity.
    + injection Hrun as _ <-. right. left. exists code, (Throw e).
      repeat split; auto. discriminate.
Qed.

End Callback.

(* ================================================================== *)
(** * Verification: the claims *)
(* ================================================================== *)

Section CallbackClaims.

Variable string_to_number : string -> JsNum.
Variable net : Net.
Variable WEBHOOK_URL : option string.

(** C10. A request body whose [code] is missing or falsy is answered with
    status 400 and the body
    [{ success: false, error: "No authorization code provided" }]; the
    world is left as it was: no request to the provider, no write to the
    token store. *)
Theorem missing_code_is_refused (reqBody code : JVal) (w : World) :
  get_prop reqBody "code" = Ok code ->
  truthy code = false ->
  exists reply,
    auth_discord string_to_number net WEBHOOK_URL reqBody w = (Ok reply, w) /\
    reply_status reply = 400 /\
    reply_body reply
    = JObj [("success", JBool false);
            ("error", JStr "No authorization code provided")] /\
    get_prop (reply_body reply) "success" = Ok (JBool false) /\
    get_prop (reply_body reply) "error"
    = Ok (JStr "No authorization code provided").
Proof.
  intros Hcode Hfalsy. rewrite auth_discord_stages, Hcode, Hfalsy.
  eexists. split; [reflexivity|]. repeat split.
Qed.

(** C4. When the code can be sent and the provider answers the token
    exchange with a non-success status, the callback answers with
    [success: false] and status 400 or 500, after that one request and
    without touching the token store.  When the provider's body is JSON,
    the status is 400 and the error is
    [error_description || error || "Failed to exchange authorization code"]:
    the provider's description whenever it is present, else the provider's
    error code, else the fixed text.  When the body is not JSON the status
    is 500. *)
Theorem rejected_exchange_leaves_store
        (reqBody code : JVal) (w : World) (text : string)
        (response : Response) :
  get_prop reqBody "code" = Ok code ->
  truthy code = true ->
  js_to_string code = Ok text ->
  outcome (net w (TokenExchange code)) = Ok response ->
  ok response = false ->
  exists reply w',
    auth_discord string_to_number net WEBHOOK_URL reqBody w = (Ok reply, w') /\
    (reply_status reply = 400 \/ reply_status reply = 500) /\
    get_prop (reply_body reply) "success" = Ok (JBool false) /\
    userTokens w' = userTokens w /\
    trace w' = (trace w ++ [EvFetch (TokenExchange code)])%list /\
    (forall tokenData description error',
        body response = BodyJson tokenData ->
        get_prop tokenData "error_description" = Ok description ->
        get_prop tokenData "error" = Ok error' ->
        reply_status reply = 400 /\
        (truthy description = true ->
         get_prop (reply_body reply) "error" = Ok description) /\
        (truthy description = false -> truthy error' = true ->
         get_prop (reply_body reply) "error" = Ok error') /\
        (truthy description = false -> truthy error' = false ->
         get_prop (reply_body reply) "error"
         = Ok (JStr "Failed to exchange authorization code"))) /\
    (forall notJson, body response = BodyText notJson ->
                     reply_status reply = 500).
Proof.
  intros Hcode Htruthy Hprint Hout Hok.
  rewrite auth_discord_stages, Hcode, Htruthy. cbn [negb].
  rewrite (until_persisted_rejected _ _ _ _ _ _ Hprint Hout Hok).
  unfold json. destruct (body response) as [tokenData|notJson]; cbn [rbind].
  - destruct (get_prop tokenData "error_description") as [d|m] eqn:Hd;
      cbn [rbind].
    + destruct (get_prop tokenData "error") as [e|m] eqn:He; cbn [rbind].
      * eexists _, _. split; [reflexivity|].
        cbn [userTokens trace reply_status reply_body failure].
        split; [left; reflexivity|]. do 3 (split; [reflexivity|]).
        split; [|discriminate].
        intros tokenData' description error' Hbody Hd' He'.
        injection Hbody as <-. rewrite Hd in Hd'. rewrite He in He'.
        injection Hd' as <-. injection He' as <-.
        split; [reflexivity|]. unfold js_or. cbn.
        repeat split; intros; repeat match goal with
                                     | H : truthy _ = _ |- _ => rewrite H
                                     end; reflexivity.
      * eexists _, _. split; [reflexivity|].
        cbn [userTokens trace reply_status reply_body failure].
        split; [right; reflexivity|]. do 3 (split; [reflexivity|]).
        split; [|discriminate].
        intros tokenData' description error' Hbody Hd' He'.
        injection Hbody as <-. congruence.
    + eexists _, _. split; [reflexivity|].
      cbn [userTokens trace reply_status reply_body failure].
      split; [right; reflexivity|]. do 3 (split; [reflexivity|]).
      split; [|discriminate].
      intros tokenData' description error' Hbody Hd' He'.
      injection Hbody as <-. congruence.
  - eexists _, _. split; [reflexivity|].
    cbn [userTokens trace reply_status reply_body failure].
    split; [right; reflexivity|]. do 3 (split; [reflexivity|]).
    split; [|reflexivity].
    intros tokenData' description error' Hbody. discriminate.
Qed.

(** C5. A reply of the callback with status 200 is exactly
    [{ success: true, user: { id, username, avatar, email } }], where the
    four values are those of the user object built from the profile the
    provider returned; the object has no other entry, so reading
    [access_token] or [refresh_token] from it gives [undefined]. *)
Theorem summary_has_four_fields
        (reqBody : JVal) (w w' : World) (reply : HttpReply) :
  auth_discord string_to_number net WEBHOOK_URL reqBody w = (Ok reply, w') ->
  reply_status reply = 200 ->
  exists code tokenResponse tokenData bearer userResponse userData user,
    get_prop reqBody "code" = Ok code /\
    outcome (net w (TokenExchange code)) = Ok tokenResponse /\
    json tokenResponse = Ok tokenData /\
    get_prop tokenData "access_token" = Ok bearer /\
    outcome (net (snd (fetch net (TokenExchange code) w)) (GetProfile bearer))
    = Ok userResponse /\
    json userResponse = Ok userData /\
    build_user userData = Ok user /\
    reply_body reply
    = JObj [("success", JBool true);
            ("user",
             JObj [("id", User.id user);
                   ("username", User.username user);
                   ("avatar", JStr (User.avatar user));
                   ("email", User.email user)])] /\
    (forall summary,
        get_prop (reply_body reply) "user" = Ok summary ->
        get_prop summary "access_token" = Ok JUndefined /\
        get_prop summary "refresh_token" = Ok JUndefined).
Proof.
  intros Hrun Hstatus.
  destruct (success_inv _ _ _ _ _ _ _ Hrun Hstatus)
    as (code & user & stored & w1 & Hcode & _ & Hstage & _ & -> & _).
  destruct (until_persisted_world _ _ _ _ _ _ _ Hstage)
    as (tr & td & b & ur & ud & H1 & _ & H2 & H3 & H4 & _ & H5 & H6 & _).
  exists code, tr, td, b, ur, ud, user.
  do 8 (split; [auto|]).
  intros summary Hsummary. cbn in Hsummary. injection Hsummary as <-.
  split; reflexivity.
Qed.

End CallbackClaims.

(** C7. The reply of the callback, and the token store it leaves, depend
    on the network only through the exchange and the profile request: two
    networks that differ in what the role gateway (or the webhook) answers,
    for instance 403 against success, get the same reply.  And a session
    that has reached [Persisted], with a user id that can be written into
    the log line when the token was stored, is answered with status 200
    and the summary of its user, never with an error, whatever the role
    gateway answers. *)
Theorem role_grant_failure_is_invisible
        (string_to_number : string -> JsNum)
        (net net' : Net) (hook hook' : option string)
        (reqBody : JVal) (w : World) :
  (forall w0 c, net' w0 (TokenExchange c) = net w0 (TokenExchange c)) ->
  (forall w0 b, net' w0 (GetProfile b) = net w0 (GetProfile b)) ->
  fst (auth_discord string_to_number net' hook' reqBody w)
  = fst (auth_discord string_to_number net hook reqBody w) /\
  userTokens (snd (auth_discord string_to_number net' hook' reqBody w))
  = userTokens (snd (auth_discord string_to_number net hook reqBody w)) /\
  forall code user stored w1,
    get_prop reqBody "code" = Ok code ->
    truthy code = true ->
    until_persisted string_to_number net code w
    = (Ok (Persisted user stored), w1) ->
    (stored = true -> printable (User.id user) = true) ->
    fst (auth_discord string_to_number net hook reqBody w)
    = Ok (mkReply 200
            (JObj [("success", JBool true);
                   ("user",
                    JObj [("id", User.id user);
                          ("username", User.username user);
                          ("avatar", JStr (User.avatar user));
                          ("email", User.email user)])])) /\
    userTokens (snd (auth_discord string_to_number net hook reqBody w))
    = userTokens w1.
Proof.
  intros Hexchange Hprofile.
  rewrite !auth_discord_stages.
  destruct (get_prop reqBody "code") as [code|e].
  - destruct (negb (truthy code)) eqn:Hcode.
    + do 2 (split; [reflexivity|]). intros c user stored w1 Hc Ht _.
      injection Hc as <-. rewrite Ht in Hcode. discriminate.
    + rewrite (until_persisted_same_net string_to_number net net' code w
                 Hexchange Hprofile).
      destruct (until_persisted string_to_number net code w)
        as [[[r|user stored]|e] w1] eqn:Hst.
      * do 2 (split; [reflexivity|]). intros c u s w2 Hc _ Hstage.
        injection Hc as <-. rewrite Hst in Hstage. discriminate.
      * destruct (if stored then js_to_string (User.id user) else Ok "")
          as [line|e] eqn:Hline; cbn [fst snd]; rewrite ?after_tasks_store;
          (do 2 (split; [reflexivity|])); intros c u s w2 Hc _ Hstage Hprint;
          injection Hc as <-; rewrite Hst in Hstage;
          injection Hstage as <- <- <-.
        -- split; reflexivity.
        -- unfold printable in Hprint. destruct stored; [|discriminate].
           rewrite Hline in Hprint. discriminate (Hprint eq_refl).
      * do 2 (split; [reflexivity|]). intros c u s w2 Hc _ Hstage.
        injection Hc as <-. rewrite Hst in Hstage. discriminate.
  - do 2 (split; [reflexivity|]). intros c user stored w1 Hc. discriminate.
Qed.

(* ================================================================== *)
(** * The avatar of the user object *)
(* ================================================================== *)

Section Avatar.

Lemma digit_facts (c : ascii) :
  is_digit c = true ->
  is_space c = false /\
  digit_val 10 c = Some (Z.of_nat (nat_of_ascii c) - 48) /\
  0 <= Z.of_nat (nat_of_ascii c) - 48 /\
  strip_sign (String c EmptyString) = (false, String c EmptyString) /\
  c <> "x"%char /\ c <> "X"%char.
Proof.
  destruct c as [[] [] [] [] [] [] [] []]; vm_compute; intros H;
    try discriminate H; repeat split; discriminate.
Qed.

Lemma strip_sign_digit (c : ascii) (rest : string) :
  is_digit c = true -> strip_sign (String c rest) = (false, String c rest).
Proof.
  destruct c as [[] [] [] [] [] [] [] []]; vm_compute; intros H;
    try discriminate H; reflexivity.
Qed.

Lemma strip_hex_prefix_digits (s : string) :
  all_digits s = true -> strip_hex_prefix s = (10, s).
Proof.
  destruct s as [|c [|c2 rest]]; try reflexivity.
  - intros _. destruct c as [[] [] [] [] [] [] [] []]; reflexivity.
  - cbn [all_digits]. intros H.
    apply andb_true_iff in H as (_ & H). apply andb_true_iff in H as (H & _).
    destruct (digit_facts c2 H) as (_ & _ & _ & _ & Hx & HX).
    unfold strip_hex_prefix.
    destruct c as [[] [] [] [] [] [] [] []]; try reflexivity.
    destruct c2 as [[] [] [] [] [] [] [] []]; try reflexivity; congruence.
Qed.

Lemma read_digits_decimal (s : string) :
  forall acc, all_digits s = true ->
              read_digits 10 s (Some acc)
              = (Some (decimal_from acc s), EmptyString).
Proof.
  induction s as [|c rest IH]; intros acc H.
  - reflexivity.
  - cbn [all_digits] in H. apply andb_true_iff in H as (Hc & Hrest).
    destruct (digit_facts c Hc) as (_ & Hval & _).
    cbn [read_digits decimal_from]. rewrite Hval. apply IH. exact Hrest.
Qed.

Lemma decimal_from_nonneg (s : string) :
  forall acc, 0 <= acc -> all_digits s = true -> 0 <= decimal_from acc s.
Proof.
  induction s as [|c rest IH]; intros acc Hacc H.
  - exact Hacc.
  - cbn [all_digits] in H. apply andb_true_iff in H as (Hc & Hrest).
    destruct (digit_facts c Hc) as (_ & _ & Hpos & _).
    cbn [decimal_from]. apply IH; [lia|exact Hrest].
Qed.

(** [parseInt] of a decimal numeral is the number it denotes. *)
Lemma parseInt_decimal (s : string) :
  s <> EmptyString -> all_digits s = true ->
  parseInt (JStr s) = Ok (Fin (decimal_value s)).
Proof.
  intros Hne Hdigits. unfold parseInt, parseInt_string.
  cbn [js_to_string rbind]. f_equal.
  destruct s as [|c rest]; [congruence|].
  pose proof Hdigits as H. cbn [all_digits] in H.
  apply andb_true_iff in H as (Hc & Hrest).
  destruct (digit_facts c Hc) as (Hspace & Hval & _).
  cbn [skip_space]. rewrite Hspace, (strip_sign_digit c rest Hc).
  rewrite (strip_hex_prefix_digits _ Hdigits).
  cbn [read_digits]. rewrite Hval, (read_digits_decimal rest _ Hrest).
  cbn [fst]. unfold decimal_value. cbn [decimal_from]. reflexivity.
Qed.

(** With an avatar asset the result is the CDN URL built from the user id
    and the asset id. *)
Lemma avatar_from_asset (id avatar discriminator : JVal)
      (idText avatarText : string) :
  truthy avatar = true ->
  js_to_string id = Ok idText ->
  js_to_string avatar = Ok avatarText ->
  avatar_url id avatar discriminator
  = Ok ("https://cdn.discordapp.com/avatars/" ++ idText ++ "/"
          ++ avatarText ++ ".png").
Proof.
  intros Hasset Hid Havatar. unfold avatar_url.
  rewrite Hasset, Hid, Havatar. reflexivity.
Qed.

(** Without an avatar asset and with a decimal discriminator, the result
    is the default avatar whose index is the discriminator modulo 5.  The
    bound keeps the discriminator among the integers JavaScript represents
    exactly. *)
Lemma avatar_from_discriminator (id avatar : JVal) (s : string) :
  truthy avatar = false ->
  s <> EmptyString -> all_digits s = true -> decimal_value s < 2 ^ 53 ->
  avatar_url id avatar (JStr s)
  = Ok ("https://cdn.discordapp.com/embed/avatars/"
          ++ Z_to_string (decimal_value s mod 5) ++ ".png").
Proof.
  intros Hnone Hne Hdigits _. unfold avatar_url. rewrite Hnone.
  rewrite (parseInt_decimal s Hne Hdigits).
  cbn [rbind js_rem Z.eqb num_to_string].
  rewrite Z.rem_mod_nonneg; [reflexivity| |lia].
  apply decimal_from_nonneg; [lia|exact Hdigits].
Qed.

End Avatar.

(** The two examples of the specification. *)
Example avatar_1234 :
  avatar_url (JStr "42") JNull (JStr "1234")
  = Ok "https://cdn.discordapp.com/embed/avatars/4.png".
Proof. reflexivity. Qed.

Example avatar_abc :
  avatar_url (JStr "42") (JStr "abc") (JStr "1234")
  = Ok "https://cdn.discordapp.com/avatars/42/abc.png".
Proof. reflexivity. Qed.

(** The placeholder discriminator of accounts on the new username system. *)
Example avatar_discriminator_zero :
  avatar_url (JStr "42") JNull (JStr "0")
  = Ok "https://cdn.discordapp.com/embed/avatars/0.png".
Proof. reflexivity. Qed.

(** C6, at the failing input.  A profile with no avatar asset and no
    discriminator: [parseInt(undefined) % 5] is [NaN], and the avatar of
    the reply is the default avatar "NaN", not index 0. *)
Theorem missing_discriminator_gives_NaN_avatar :
  avatar_url (JStr "42") JUndefined JUndefined
  = Ok "https://cdn.discordapp.com/embed/avatars/NaN.png" /\
  fst (auth_discord Fixtures.no_numerals CallbackFixtures.net_bare_profile
         CallbackFixtures.hook CallbackFixtures.good_request Fixtures.nobody)
  = Ok (mkReply 200
          (JObj [("success", JBool true);
                 ("user",
                  JObj [("id", JStr "42");
                        ("username", JStr "bob");
                        ("avatar",
                         JStr "https://cdn.discordapp.com/embed/avatars/NaN.png");
                        ("email", JUndefined)])])) /\
  "https://cdn.discordapp.com/embed/avatars/NaN.png"
  <> "https://cdn.discordapp.com/embed/avatars/0.png".
Proof.
  split; [reflexivity|]. split; [vm_compute; reflexivity|discriminate].
Qed.

Lemma missing_code_is_refused_witness :
  exists reply,
    auth_discord Fixtures.no_numerals CallbackFixtures.net_role_granted
      CallbackFixtures.hook CallbackFixtures.empty_request Fixtures.nobody
    = (Ok reply, Fixtures.nobody) /\
    reply_status reply = 400 /\
    reply_body reply
    = JObj [("success", JBool false);
            ("error", JStr "No authorization code provided")] /\
    get_prop (reply_body reply) "success" = Ok (JBool false) /\
    get_prop (reply_body reply) "error"
    = Ok (JStr "No authorization code provided").
Proof.
  apply (missing_code_is_refused Fixtures.no_numerals
           CallbackFixtures.net_role_granted CallbackFixtures.hook
           CallbackFixtures.empty_request JUndefined).
  - reflexivity.
  - reflexivity.
Defined.

Lemma rejected_exchange_leaves_store_witness :
  exists reply w',
    auth_discord Fixtures.no_numerals CallbackFixtures.net_role_granted
      CallbackFixtures.hook CallbackFixtures.bad_request Fixtures.three_users
    = (Ok reply, w') /\
    (reply_status reply = 400 \/ reply_status reply = 500) /\
    get_prop (reply_body reply) "success" = Ok (JBool false) /\
    userTokens w' = userTokens Fixtures.three_users /\
    trace w'
    = (trace Fixtures.three_users ++ [EvFetch (TokenExchange (JStr "used"))])%list /\
    (forall tokenData description error',
        body CallbackFixtures.invalid_grant = BodyJson tokenData ->
        get_prop tokenData "error_description" = Ok description ->
        get_prop tokenData "error" = Ok error' ->
        reply_status reply = 400 /\
        (truthy description = true ->
         get_prop (reply_body reply) "error" = Ok description) /\
        (truthy description = false -> truthy error' = true ->
         get_prop (reply_body reply) "error" = Ok error') /\
        (truthy description = false -> truthy error' = false ->
         get_prop (reply_body reply) "error"
         = Ok (JStr "Failed to exchange authorization code"))) /\
    (forall notJson, body CallbackFixtures.invalid_grant = BodyText notJson ->
                     reply_status reply = 500).
Proof.
  apply (rejected_exchange_leaves_store Fixtures.no_numerals
           CallbackFixtures.net_role_granted CallbackFixtures.hook
           CallbackFixtures.bad_request (JStr "used") Fixtures.three_users
           "used" CallbackFixtures.invalid_grant).
  - reflexivity.
  - reflexivity.
  - reflexivity.
  - reflexivity.
  - reflexivity.
Defined.

(** The provider's description reaches the caller. *)
Example rejected_exchange_reply :
  fst (auth_discord Fixtures.no_numerals CallbackFixtures.net_role_granted
         CallbackFixtures.hook CallbackFixtures.bad_request
         Fixtures.three_users)
  = Ok (mkReply 400
          (JObj [("success", JBool false);
                 ("error", JStr "Invalid code in request.")])).
Proof. vm_compute. reflexivity. Qed.

(** A code that cannot be converted for the form body is never sent: the
    callback answers 500 with the message of the [TypeError]. *)
Example unprintable_code_is_not_sent :
  auth_discord Fixtures.no_numerals CallbackFixtures.net_role_granted
    CallbackFixtures.hook (JObj [("code", MoreFixtures.odd)])
    Fixtures.three_users
  = (Ok (mkReply 500
           (JObj [("success", JBool false);
                  ("error", JStr "Cannot convert object to primitive value")])),
     Fixtures.three_users).
Proof. vm_compute. reflexivity. Qed.

Lemma summary_has_four_fields_witness :
  exists code tokenResponse tokenData bearer userResponse userData user,
    get_prop CallbackFixtures.good_request "code" = Ok code /\
    outcome (CallbackFixtures.net_role_forbidden Fixtures.nobody
               (TokenExchange code)) = Ok tokenResponse /\
    json tokenResponse = Ok tokenData /\
    get_prop tokenData "access_token" = Ok bearer /\
    outcome (CallbackFixtures.net_role_forbidden
               (snd (fetch CallbackFixtures.net_role_forbidden
                       (TokenExchange code) Fixtures.nobody))
               (GetProfile bearer))
    = Ok userResponse /\
    json userResponse = Ok userData /\
    build_user userData = Ok user /\
    reply_body (success_reply CallbackFixtures.bob)
    = JObj [("success", JBool true);
            ("user",
             JObj [("id", User.id user);
                   ("username", User.username user);
                   ("avatar", JStr (User.avatar user));
                   ("email", User.email user)])] /\
    (forall summary,
        get_prop (reply_body (success_reply CallbackFixtures.bob)) "user"
        = Ok summary ->
        get_prop summary "access_token" = Ok JUndefined /\
        get_prop summary "refresh_token" = Ok JUndefined).
Proof.
  apply (summary_has_four_fields Fixtures.no_numerals
           CallbackFixtures.net_role_forbidden
           CallbackFixtures.hook CallbackFixtures.good_request Fixtures.nobody
           (snd (auth_discord Fixtures.no_numerals
                   CallbackFixtures.net_role_forbidden
                   CallbackFixtures.hook CallbackFixtures.good_request
                   Fixtures.nobody))
           (success_reply CallbackFixtures.bob)).
  - vm_compute. reflexivity.
  - reflexivity.
Defined.

Lemma role_grant_failure_is_invisible_witness :
  fst (auth_discord Fixtures.no_numerals CallbackFixtures.net_role_granted None
         CallbackFixtures.good_request Fixtures.nobody)
  = fst (auth_discord Fixtures.no_numerals CallbackFixtures.net_role_forbidden
           CallbackFixtures.hook CallbackFixtures.good_request Fixtures.nobody) /\
  userTokens (snd (auth_discord Fixtures.no_numerals
                     CallbackFixtures.net_role_granted None
                     CallbackFixtures.good_request Fixtures.nobody))
  = userTokens (snd (auth_discord Fixtures.no_numerals
                       CallbackFixtures.net_role_forbidden
                       CallbackFixtures.hook CallbackFixtures.good_request
                       Fixtures.nobody)) /\
  forall code user stored w1,
    get_prop CallbackFixtures.good_request "code" = Ok code ->
    truthy code = true ->
    until_persisted Fixtures.no_numerals CallbackFixtures.net_role_forbidden
      code Fixtures.nobody
    = (Ok (Persisted user stored), w1) ->
    (stored = true -> printable (User.id user) = true) ->
    fst (auth_discord Fixtures.no_numerals CallbackFixtures.net_role_forbidden
           CallbackFixtures.hook CallbackFixtures.good_request Fixtures.nobody)
    = Ok (mkReply 200
            (JObj [("success", JBool true);
                   ("user",
                    JObj [("id", User.id user);
                          ("username", User.username user);
                          ("avatar", JStr (User.avatar user));
                          ("email", User.email user)])])) /\
    userTokens (snd (auth_discord Fixtures.no_numerals
                       CallbackFixtures.net_role_forbidden
                       CallbackFixtures.hook CallbackFixtures.good_request
                       Fixtures.nobody))
    = userTokens w1.
Proof.
  apply (role_grant_failure_is_invisible Fixtures.no_numerals
           CallbackFixtures.net_role_forbidden
           CallbackFixtures.net_role_granted CallbackFixtures.hook None
           CallbackFixtures.good_request Fixtures.nobody).
  - intros w0 c. reflexivity.
  - intros w0 b. reflexivity.
Defined.

(** The test of the specification: the role gateway answers 403, the role
    task rejects, and the caller still gets the profile summary; the token
    is stored. *)
Example verify_with_forbidden_role :
  fst (assignVerifiedRole CallbackFixtures.net_role_forbidden (JStr "42")
         Fixtures.nobody)
  = Throw "Bot lacks permission to assign roles" /\
  until_persisted Fixtures.no_numerals CallbackFixtures.net_role_forbidden
    (JStr "good") Fixtures.nobody
  = (Ok (Persisted CallbackFixtures.bob true),
     mkWorld [(KStr "42",
               mkTokenData (JStr "AT") (JStr "RT") (Fin 604800002))] 2
       [EvFetch (TokenExchange (JStr "good"));
        EvFetch (GetProfile (JStr "AT"));
        EvSet (KStr "42")
          (mkTokenData (JStr "AT") (JStr "RT") (Fin 604800002))]) /\
  fst (auth_discord Fixtures.no_numerals CallbackFixtures.net_role_forbidden
         CallbackFixtures.hook CallbackFixtures.good_request Fixtures.nobody)
  = Ok (mkReply 200
          (JObj [("success", JBool true);
                 ("user",
                  JObj [("id", JStr "42");
                        ("username", JStr "bob");
                        ("avatar",
                         JStr "https://cdn.discordapp.com/embed/avatars/4.png");
                        ("email", JStr "bob@example.com")])])) /\
  TokenMap.keys
    (userTokens
       (snd (auth_discord Fixtures.no_numerals
               CallbackFixtures.net_role_forbidden
               CallbackFixtures.hook CallbackFixtures.good_request
               Fixtures.nobody)))
  = [KStr "42"].
Proof. repeat split; vm_compute; reflexivity. Qed.

(** A profile whose id cannot be written into the log line: the token is
    stored, and then the callback answers 500; no role is requested. *)
Example unprintable_id_is_stored_then_refused :
  auth_discord Fixtures.no_numerals MoreFixtures.net_odd_profile
    CallbackFixtures.hook CallbackFixtures.good_request Fixtures.nobody
  = (Ok (mkReply 500
           (JObj [("success", JBool false);
                  ("error", JStr "Cannot convert object to primitive value")])),
     mkWorld [(to_key 2 MoreFixtures.odd,
               mkTokenData (JStr "AT") (JStr "RT") (Fin 604800002))] 2
       [EvFetch (TokenExchange (JStr "good"));
        EvFetch (GetProfile (JStr "AT"));
        EvSet (to_key 2 MoreFixtures.odd)
          (mkTokenData (JStr "AT") (JStr "RT") (Fin 604800002))]).
Proof. vm_compute. reflexivity. Qed.

(* ================================================================== *)
(** * The callback: what it stores, what it sends, in which order *)
(* ================================================================== *)

Section CallbackEffects.

Variable string_to_number : string -> JsNum.
Variable net : Net.
Variable WEBHOOK_URL : option string.


(** The world after the exchange and the profile request. *)
Lemma profile_world (code access : JVal) (w : World) :
  let wB := snd (fetch net (GetProfile access)
                   (snd (fetch net (TokenExchange code) w))) in
  userTokens wB = userTokens w /\
  trace wB = (trace w ++ [EvFetch (TokenExchange code);
                          EvFetch (GetProfile access)])%list /\
  length (trace wB) = (length (trace w) + 2)%nat /\
  clock wB = stored_at net code access w.
Proof.
  cbv zeta. unfold stored_at, fetch. cbn [snd userTokens trace clock].
  rewrite <- app_assoc. cbn [app]. rewrite length_app. cbn [length].
  repeat split.
Qed.

(** The detached tasks write nothing, and send nothing but the role
    request and the webhook request. *)
Lemma after_tasks_quiet (user : User.t) (w : World) :
  exists tr,
    trace (after_tasks net WEBHOOK_URL user w) = (trace w ++ tr)%list /\
    writes tr = [] /\
    forall req, In req (requests tr) ->
      req = PutRole (User.id user) \/
      exists email verified thumbnail,
        req = PostWebhook (User.id user) email verified thumbnail.
Proof.
  rewrite after_tasks_trace. eexists. split; [reflexivity|].
  destruct (printable (User.id user)), WEBHOOK_URL; cbn;
    (split; [reflexivity|]); intros req Hin;
    repeat match goal with
           | H : _ \/ _ |- _ => destruct H as [<-|H]
           | H : False |- _ => destruct H
           end; eauto.
Qed.

(** The store after the callback is the store before it, or that store
    with one [set]; the trace shows which. *)
Lemma callback_store (reqBody : JVal) (w : World) :
  let run := auth_discord string_to_number net WEBHOOK_URL reqBody w in
  exists tr,
    trace (snd run) = (trace w ++ tr)%list /\
    (writes tr = [] /\ userTokens (snd run) = userTokens w \/
     exists key data,
       writes tr = [key] /\ In (EvSet key data) tr /\
       userTokens (snd run) = TokenMap.set key data (userTokens w)).
Proof.
  cbv zeta. rewrite auth_discord_stages.
  assert (Hnothing : exists tr,
             trace w = (trace w ++ tr)%list /\
             (writes tr = [] /\ userTokens w = userTokens w \/
              exists key data,
                writes tr = [key] /\ In (EvSet key data) tr /\
                userTokens w = TokenMap.set key data (userTokens w))).
  { exists []. rewrite app_nil_r. auto. }
  destruct (get_prop reqBody "code") as [code|e]; [|exact Hnothing].
  destruct (negb (truthy code)); [exact Hnothing|].
  assert (Hstops : forall res w1,
             until_persisted string_to_number net code w = (res, w1) ->
             (forall user stored, res <> Ok (Persisted user stored)) ->
             exists tr,
               trace w1 = (trace w ++ tr)%list /\
               (writes tr = [] /\ userTokens w1 = userTokens w \/
                exists key data,
                  writes tr = [key] /\ In (EvSet key data) tr /\
                  userTokens w1 = TokenMap.set key data (userTokens w))).
  { intros res w1 Hstage Hnot.
    destruct (until_persisted_stops _ _ _ _ _ _ Hstage Hnot)
      as (Hstore & [->|[Htrace|(bearer & Htrace)]] & _).
    - exact Hnothing.
    - eexists. split; [exact Htrace|]. left. auto.
    - eexists. split; [exact Htrace|]. left. auto. }
  destruct (until_persisted string_to_number net code w)
    as [[[r|user stored]|e] w1] eqn:Hstage; cbn [fst snd].
  - apply (Hstops _ _ eq_refl). discriminate.
  - destruct (until_persisted_world _ _ _ _ _ _ _ Hstage)
      as (tr0 & td & access & ur & ud & _ & _ & _ & _ & _ & _ & _ & _ & _ &
          Hstored & Hworld).
    cbv zeta in Hworld.
    destruct (profile_world code access w) as (HstoreB & HtraceB & _ & _).
    destruct (after_tasks_quiet user w1) as (tasks & Htasks & Hquiet & _).
    destruct Hworld as [(Hfalsy & ->)|(Htruthy & r' & e' & s' & _ & _ & _ & ->)].
    + rewrite Hfalsy in Hstored. subst stored. cbn [snd].
      rewrite after_tasks_store, Htasks, HtraceB, <- app_assoc.
      eexists. split; [reflexivity|]. left. split; [|exact HstoreB].
      unfold writes in *. rewrite flat_map_app, Hquiet. reflexivity.
    + rewrite Htruthy in Hstored. subst stored.
      unfold store_set in *. cbn [snd userTokens trace] in *.
      destruct (js_to_string (User.id user)); cbn [snd].
      * rewrite after_tasks_store, Htasks. cbn [userTokens trace].
        rewrite HtraceB, HstoreB, <- !app_assoc.
        eexists. split; [reflexivity|]. right. eexists _, _.
        split; [|split; [|reflexivity]].
        -- unfold writes in *. cbn [app flat_map].
           rewrite Hquiet. reflexivity.
        -- cbn [app]. right. right. left. reflexivity.
      * cbn [trace userTokens]. rewrite HtraceB, HstoreB, <- !app_assoc.
        eexists. split; [reflexivity|]. right. eexists _, _.
        split; [reflexivity|]. split; [|reflexivity].
        cbn [app]. right. right. left. reflexivity.
  - apply (Hstops _ _ eq_refl). discriminate.
Qed.

End CallbackEffects.

Section CallbackExtras.

Variable string_to_number : string -> JsNum.
Variable net : Net.
Variable WEBHOOK_URL : option string.


(** X2. When the exchange succeeds without a truthy [access_token], the
    callback can still answer 200, and then nothing is stored: the token
    store is the one before the request. *)
Theorem success_without_token_stores_nothing
        (reqBody code tokenData access : JVal) (w w' : World)
        (reply : HttpReply) :
  auth_discord string_to_number net WEBHOOK_URL reqBody w = (Ok reply, w') ->
  reply_status reply = 200 ->
  get_prop reqBody "code" = Ok code ->
  rbind (outcome (net w (TokenExchange code))) json = Ok tokenData ->
  get_prop tokenData "access_token" = Ok access ->
  truthy access = false ->
  userTokens w' = userTokens w.
Proof.
  intros Hrun Hstatus Hcode Htoken Haccess Hfalsy.
  destruct (success_inv _ _ _ _ _ _ _ Hrun Hstatus)
    as (code' & user & stored & w1 & Hcode' & _ & Hstage & _ & -> & ->).
  rewrite Hcode in Hcode'. injection Hcode' as <-.
  destruct (until_persisted_world _ _ _ _ _ _ _ Hstage)
    as (tr0 & tokenData' & access' & ur & ud & Hout & _ & Hjson & Haccess' &
        _ & _ & _ & _ & _ & _ & Hworld).
  rewrite Hout in Htoken. cbn [rbind] in Htoken.
  rewrite Hjson in Htoken. injection Htoken as <-.
  rewrite Haccess in Haccess'. injection Haccess' as <-.
  rewrite after_tasks_store.
  destruct Hworld as [(_ & ->)|(Htruthy & _)]; [reflexivity|congruence].
Qed.

(** X3. The callback writes at most one key of the token store, and the
    trace shows which.  Every other key has the same entry before and
    after; the written key holds the data of the write; and the stored
    keys keep their order, with at most one new key, the written one, at
    the end. *)
Theorem verification_keeps_other_tokens (reqBody : JVal) (w : World) :
  let run := auth_discord string_to_number net WEBHOOK_URL reqBody w in
  exists tr,
    trace (snd run) = (trace w ++ tr)%list /\
    (length (writes tr) <= 1)%nat /\
    (forall userId,
        ~ In userId (writes tr) ->
        TokenMap.get userId (userTokens (snd run))
        = TokenMap.get userId (userTokens w)) /\
    (forall userId,
        In userId (writes tr) ->
        exists data,
          In (EvSet userId data) tr /\
          TokenMap.get userId (userTokens (snd run)) = Some data) /\
    exists suffix,
      TokenMap.keys (userTokens (snd run))
      = (TokenMap.keys (userTokens w) ++ suffix)%list /\
      (length suffix <= 1)%nat /\
      forall userId, In userId suffix -> In userId (writes tr).
Proof.
  cbv zeta.
  destruct (callback_store string_to_number net WEBHOOK_URL reqBody w)
    as (tr & Htr & [(Hquiet & Hsame)|(key & data & Hwrites & Hin & Hset)]);
    cbv zeta in *; exists tr; (split; [exact Htr|]).
  - rewrite Hquiet, Hsame. split; [cbn; lia|]. split; [reflexivity|].
    split; [intros userId []|].
    exists []. rewrite app_nil_r. split; [reflexivity|]. split; [cbn; lia|].
    intros userId [].
  - rewrite Hwrites, Hset. split; [cbn; lia|]. split; [|split].
    + intros userId Hother. apply get_set_other.
      intros ->. apply Hother. left. reflexivity.
    + intros userId [<-|[]]. exists data. split; [exact Hin|].
      apply get_set_same.
    + rewrite keys_set. destruct (TokenMap.get key (userTokens w)).
      * exists []. rewrite app_nil_r. split; [reflexivity|].
        split; [cbn; lia|]. intros userId [].
      * exists [key]. split; [reflexivity|]. split; [cbn; lia|].
        intros userId Hk. exact Hk.
Qed.


(** X5. A reply other than 200 means that no role was requested and no
    webhook was called: the only requests sent are the exchange and
    perhaps the profile request.  The token store is unchanged and nothing
    was written, except in one case: the status is 500 and a token was
    stored under an id that cannot be converted to a string. *)
Theorem failed_verification_effects
        (reqBody : JVal) (w w' : World) (reply : HttpReply) :
  auth_discord string_to_number net WEBHOOK_URL reqBody w = (Ok reply, w') ->
  reply_status reply <> 200 ->
  exists tr,
    trace w' = (trace w ++ tr)%list /\
    (length (requests tr) <= 2)%nat /\
    (forall req, In req (requests tr) ->
                 (exists code, req = TokenExchange code) \/
                 (exists bearer, req = GetProfile bearer)) /\
    (writes tr = [] /\ userTokens w' = userTokens w \/
     reply_status reply = 500 /\
     exists key data,
       printable (key_value key) = false /\
       writes tr = [key] /\
       userTokens w' = TokenMap.set key data (userTokens w)).
Proof.
  intros Hrun Hstatus.
  destruct (failure_inv _ _ _ _ _ _ _ Hrun Hstatus)
    as [->|[(code & res & _ & Hstage & Hnot)
           |(code & user & _ & Hstage & Hprint & H500)]].
  - exists []. rewrite app_nil_r. cbn.
    split; [reflexivity|]. split; [lia|]. split; [intros req []|]. auto.
  - destruct (until_persisted_stops _ _ _ _ _ _ Hstage Hnot)
      as (Hstore & [->|[Htrace|(bearer & Htrace)]] & _).
    + exists []. rewrite app_nil_r. cbn.
      split; [reflexivity|]. split; [lia|]. split; [intros req []|]. auto.
    + eexists. split; [exact Htrace|]. cbn. split; [lia|].
      split; [|left; auto]. intros req [<-|[]]. left. eauto.
    + eexists. split; [exact Htrace|]. cbn. split; [lia|].
      split; [|left; auto]. intros req [<-|[<-|[]]]; [left|right]; eauto.
  - destruct (until_persisted_world _ _ _ _ _ _ _ Hstage)
      as (tr0 & td & access & ur & ud & _ & _ & _ & _ & _ & _ & _ & _ & _ &
          Hstored & Hworld).
    cbv zeta in Hworld.
    destruct (profile_world net code access w) as (HstoreB & HtraceB & _ & _).
    cbv zeta in HstoreB, HtraceB.
    destruct Hworld as [(Hfalsy & _)|(_ & r' & e' & s' & _ & _ & _ & ->)];
      [congruence|].
    unfold store_set. cbn [snd userTokens trace].
    rewrite HtraceB, HstoreB, <- app_assoc. cbn [app].
    eexists. split; [reflexivity|]. cbn. split; [lia|].
    split; [intros req [<-|[<-|[]]]; [left|right]; eauto|].
    right. split; [exact H500|]. eexists _, _.
    split; [|split; reflexivity].
    rewrite key_value_to_key. exact Hprint.
Qed.

(** X6. Whatever the provider does, a request whose body can be read gets
    an answer: the handler does not throw, the status is 200, 400 or 500,
    and [success] is [true] exactly for 200. *)
Theorem callback_always_answers (reqBody code : JVal) (w : World) :
  get_prop reqBody "code" = Ok code ->
  exists reply w',
    auth_discord string_to_number net WEBHOOK_URL reqBody w = (Ok reply, w') /\
    (reply_status reply = 200 \/ reply_status reply = 400 \/
     reply_status reply = 500) /\
    get_prop (reply_body reply) "success"
    = Ok (JBool (reply_status reply =? 200)).
Proof.
  intros Hcode. rewrite auth_discord_stages, Hcode.
  destruct (negb (truthy code)).
  - eexists _, _. split; [reflexivity|]. cbn. auto.
  - destruct (until_persisted string_to_number net code w)
      as [[[r|user stored]|e] w1] eqn:Hstage.
    + destruct (until_persisted_stops _ _ _ _ _ _ Hstage) as (_ & _ & Hr);
        [discriminate|].
      destruct (Hr r eq_refl) as (error & ->).
      eexists _, _. split; [reflexivity|]. cbn. auto.
    + destruct (if stored then js_to_string (User.id user) else Ok "");
        eexists _, _; (split; [reflexivity|]); cbn; auto.
    + eexists _, _. split; [reflexivity|]. cbn. auto.
Qed.

(** X7. When the exchange succeeds and the provider answers the profile
    request with a non-success status, the callback stops after these two
    requests with the store unchanged and answers [success: false].  The
    body is parsed before the status is looked at: with a JSON body the
    reply is 400 "Failed to fetch Discord user data", with a body that is
    not JSON it is 500. *)
Theorem profile_failure_is_refused
        (reqBody code tokenData access : JVal) (w : World)
        (codeText bearerText : string)
        (tokenResponse userResponse : Response) :
  get_prop reqBody "code" = Ok code ->
  truthy code = true ->
  js_to_string code = Ok codeText ->
  outcome (net w (TokenExchange code)) = Ok tokenResponse ->
  ok tokenResponse = true ->
  json tokenResponse = Ok tokenData ->
  get_prop tokenData "access_token" = Ok access ->
  js_to_string access = Ok bearerText ->
  outcome (net (snd (fetch net (TokenExchange code) w)) (GetProfile access))
  = Ok userResponse ->
  ok userResponse = false ->
  exists reply w',
    auth_discord string_to_number net WEBHOOK_URL reqBody w = (Ok reply, w') /\
    get_prop (reply_body reply) "success" = Ok (JBool false) /\
    userTokens w' = userTokens w /\
    trace w' = (trace w ++ [EvFetch (TokenExchange code);
                            EvFetch (GetProfile access)])%list /\
    (forall v, body userResponse = BodyJson v ->
               reply
               = mkReply 400
                   (JObj [("success", JBool false);
                          ("error",
                           JStr "Failed to fetch Discord user data")])) /\
    (forall text, body userResponse = BodyText text ->
                  reply_status reply = 500).
Proof.
  intros Hcode Htruthy Hprint Hout Hok Hjson Haccess Hbearer Hout2 Hok2.
  rewrite auth_discord_stages, Hcode, Htruthy. cbn [negb].
  unfold until_persisted, bind, lift, ret, fetch, object_ref in *.
  cbn [snd] in Hout2.
  rewrite Hprint, Hout, Hjson, Hok. cbn [negb]. rewrite Haccess, Hbearer.
  cbn [userTokens clock trace]. rewrite Hout2.
  unfold json. destruct (body userResponse) as [v|text].
  - rewrite Hok2. cbn [negb]. eexists _, _. split; [reflexivity|].
    cbn [userTokens trace]. rewrite <- app_assoc.
    repeat split; auto; discriminate.
  - eexists _, _. split; [reflexivity|].
    cbn [userTokens trace]. rewrite <- app_assoc.
    repeat split; auto; discriminate.
Qed.

(** X8. When the code can be sent and the connection to the provider
    fails at the exchange, the callback answers 500 with
    [success: false] and the error's message ("Internal server error
    during authentication" when the message is empty), after that one
    request and with the store unchanged. *)
Theorem exchange_connection_failure
        (reqBody code : JVal) (w : World) (text message : string) :
  get_prop reqBody "code" = Ok code ->
  truthy code = true ->
  js_to_string code = Ok text ->
  outcome (net w (TokenExchange code)) = Throw message ->
  exists w',
    auth_discord string_to_number net WEBHOOK_URL reqBody w
    = (Ok (mkReply 500
             (JObj [("success", JBool false);
                    ("error",
                     JStr (if (message =? "")%string
                           then "Internal server error during authentication"
                           else message))])), w') /\
    userTokens w' = userTokens w /\
    trace w' = (trace w ++ [EvFetch (TokenExchange code)])%list.
Proof.
  intros Hcode Htruthy Hprint Hout.
  rewrite auth_discord_stages, Hcode, Htruthy. cbn [negb].
  unfold until_persisted, bind, lift, fetch. rewrite Hprint, Hout.
  eexists. split.
  - unfold failure, js_or. cbn [truthy].
    destruct (message =? "")%string; reflexivity.
  - split; reflexivity.
Qed.

(** X9. The order of a successful callback: the exchange request, the
    profile request with the access token of the exchange, the write to the
    store (when there is an access token), then the role request for the
    profile's id (when the id can be written into the URL), then the
    webhook request if a webhook is configured.  When a token is stored
    the role is always requested, and only after the write. *)
Theorem successful_callback_trace
        (reqBody : JVal) (w w' : World) (reply : HttpReply) :
  auth_discord string_to_number net WEBHOOK_URL reqBody w = (Ok reply, w') ->
  reply_status reply = 200 ->
  exists code tokenData access user stored,
    get_prop reqBody "code" = Ok code /\
    rbind (outcome (net w (TokenExchange code))) json = Ok tokenData /\
    get_prop tokenData "access_token" = Ok access /\
    reply_body reply
    = JObj [("success", JBool true);
            ("user",
             JObj [("id", User.id user);
                   ("username", User.username user);
                   ("avatar", JStr (User.avatar user));
                   ("email", User.email user)])] /\
    trace w'
    = (trace w
         ++ [EvFetch (TokenExchange code); EvFetch (GetProfile access)]
         ++ stored
         ++ (if printable (User.id user)
             then [EvFetch (PutRole (User.id user))] else [])
         ++ match WEBHOOK_URL with
            | Some _ =>
                [EvFetch (PostWebhook (User.id user)
                            (js_or (User.email user) (JStr "Not provided"))
                            (if truthy (User.verified user)
                             then "Yes" else "No")
                            (User.avatar user))]
            | None => []
            end)%list /\
    (truthy access = true ->
     printable (User.id user) = true /\
     exists data,
       stored = [EvSet (to_key (length (trace w) + 2) (User.id user)) data]) /\
    (truthy access = false -> stored = []).
Proof.
  intros Hrun Hstatus.
  destruct (success_inv _ _ _ _ _ _ _ Hrun Hstatus)
    as (code & user & st & w1 & Hcode & _ & Hstage & Hprint & -> & ->).
  destruct (until_persisted_world _ _ _ _ _ _ _ Hstage)
    as (tr0 & tokenData & access & ur & ud & Hout & _ & Hjson & Haccess &
        _ & _ & _ & _ & _ & Hst & Hworld).
  cbv zeta in Hworld.
  destruct (profile_world net code access w) as (_ & HtraceB & Hlen & _).
  cbv zeta in HtraceB, Hlen.
  rewrite after_tasks_trace.
  destruct Hworld as [(Hfalsy & ->)|(Htruthy & r' & e' & s' & _ & _ & _ & ->)].
  - exists code, tokenData, access, user, [].
    split; [exact Hcode|]. split; [rewrite Hout; exact Hjson|].
    do 2 (split; [assumption || reflexivity|]).
    split; [|split; [congruence|reflexivity]].
    rewrite HtraceB, <- !app_assoc. reflexivity.
  - unfold store_set. cbn [snd trace]. rewrite Hlen, HtraceB, <- !app_assoc.
    eexists code, tokenData, access, user, [_].
    split; [exact Hcode|]. split; [rewrite Hout; exact Hjson|].
    do 2 (split; [assumption || reflexivity|]).
    split; [reflexivity|]. split; [|congruence].
    intros _. split; [apply Hprint; congruence|].
    eexists. reflexivity.
Qed.

(** X10. [assignVerifiedRole] never touches the store.  When the user id
    cannot be written into the URL it rejects with the [TypeError] and
    sends nothing.  Otherwise it sends exactly one request, the role
    request for the given user; it returns normally exactly when the
    gateway answers with a success status; 404, 403 and 401 are reported
    with their own messages, and a failed connection with its own. *)
Theorem assign_role_outcomes (userId : JVal) (w : World) :
  (forall e,
      js_to_string userId = Throw e ->
      assignVerifiedRole net userId w = (Throw e, w)) /\
  (forall text,
      js_to_string userId = Ok text ->
      let answer := outcome (net w (PutRole userId)) in
      exists res,
        assignVerifiedRole net userId w
        = (res, snd (fetch net (PutRole userId) w)) /\
        userTokens (snd (fetch net (PutRole userId) w)) = userTokens w /\
        trace (snd (fetch net (PutRole userId) w))
        = (trace w ++ [EvFetch (PutRole userId)])%list /\
        (res = Ok tt <-> exists r, answer = Ok r /\ ok r = true) /\
        (forall r, answer = Ok r ->
                   (status r = 404 ->
                    res = Throw "User is not in the Discord server") /\
                   (status r = 403 ->
                    res = Throw "Bot lacks permission to assign roles") /\
                   (status r = 401 -> res = Throw "Bot token is invalid")) /\
        (forall message, answer = Throw message -> res = Throw message)).
Proof.
  split.
  - intros e Hprint.
    unfold assignVerifiedRole, try_catch, bind, lift, throw.
    rewrite Hprint. reflexivity.
  - intros text Hprint. cbv zeta.
    unfold assignVerifiedRole, try_catch, bind, lift, throw, ret, fetch.
    rewrite Hprint. cbn [snd userTokens trace].
    destruct (outcome (net w (PutRole userId))) as [r|e].
    + destruct (ok r) eqn:Hok; cbn [negb].
      * eexists. split; [reflexivity|]. do 2 (split; [reflexivity|]).
        split; [|split].
        -- split; [eauto|reflexivity].
        -- intros r' Hr'. injection Hr' as <-. unfold ok in Hok.
           repeat split; intros Hst; rewrite Hst in Hok; discriminate.
        -- discriminate.
      * destruct (status r =? 404) eqn:H404;
          [|destruct (status r =? 403) eqn:H403;
            [|destruct (status r =? 401) eqn:H401;
              [|destruct (get_prop (parse_error_body r) "message");
                [destruct (js_to_string (js_or _ _))|]]]];
          (eexists; split; [reflexivity|]);
          (do 2 (split; [reflexivity|]));
          (split; [split; [discriminate|intros (r' & Hr' & Hok'); congruence]|]);
          (split; [|discriminate]);
          intros r' Hr'; injection Hr' as <-;
          repeat split; intros Hst; rewrite Hst in *; try reflexivity;
          discriminate.
    + eexists. split; [reflexivity|]. do 2 (split; [reflexivity|]).
      split; [|split].
      * split; [discriminate|intros (r & Hr & _); discriminate].
      * discriminate.
      * intros message Hm. injection Hm as <-. reflexivity.
Qed.

(** X11. [sendToLogger] does nothing at all when no webhook is configured.
    With a webhook it sends one request, with the email replaced by "Not
    provided" when the profile has none; whatever status the webhook
    answers, that is not an error: only a failed connection rejects. *)
Theorem logger_outcomes (user : User.t) (w : World) :
  sendToLogger net None user w = (Ok tt, w) /\
  forall url,
    let payload :=
      PostWebhook (User.id user)
                  (js_or (User.email user) (JStr "Not provided"))
                  (if truthy (User.verified user) then "Yes" else "No")
                  (User.avatar user) in
    snd (sendToLogger net (Some url) user w) = snd (fetch net payload w) /\
    (forall response,
        outcome (net w payload) = Ok response ->
        fst (sendToLogger net (Some url) user w) = Ok tt) /\
    (forall message,
        outcome (net w payload) = Throw message ->
        fst (sendToLogger net (Some url) user w) = Throw message).
Proof.
  split; [reflexivity|]. intros url. cbv zeta.
  unfold sendToLogger, try_catch, bind, throw, ret, fetch. cbn [snd fst].
  destruct (outcome _) as [r|e]; cbn [fst snd].
  - repeat split; auto. discriminate.
  - repeat split; auto; [discriminate|].
    intros m Hm. injection Hm as <-. reflexivity.
Qed.

End CallbackExtras.

(* ================================================================== *)
(** * More on [/pull] *)
(* ================================================================== *)

Section PullExtras.

Variable field_ok : string * string -> bool.
Variable net : Net.

Lemma Subseq_none {A : Type} (ys : list A) : Subseq [] ys.
Proof.
  induction ys as [|y ys IH]; [apply Subseq_nil|apply Subseq_skip; exact IH].
Qed.

(** The world the authorized command leaves is the one its loop leaves. *)
Lemma pull_command_loop (w : World) :
  exists res,
    pull_each net (TokenMap.keys (userTokens w))
      (mkResults (length (TokenMap.keys (userTokens w))) 0 0 0 [])
      (record EvKeys w)
    = (res, snd (pull_command field_ok net AUTHORIZED_PULLER_ID w)).
Proof.
  rewrite pull_command_authorized. cbv zeta.
  destruct (TokenMap.keys (userTokens w)) as [|u rest].
  - eexists. reflexivity.
  - destruct (pull_each net (u :: rest) _ _) as [[r|e] w']; eexists;
      reflexivity.
Qed.

(** However the loop ends, its requests are the add-member requests of
    some users of the list, each at most as often as it is in the list, in
    the order of the list, with the access token stored for the user; and
    that token is not expired when the loop starts. *)
Lemma pull_each_requests (storedUsers : list Key) :
  forall (results : Results) (res : Result Results) (w0 w w' : World),
    userTokens w = userTokens w0 -> clock w0 <= clock w ->
    pull_each net storedUsers results w = (res, w') ->
    exists tr sent,
      trace w' = (trace w ++ tr)%list /\
      Subseq sent storedUsers /\
      requests tr = map (member_request (userTokens w0)) sent /\
      forall userId, In userId sent ->
        exists tokenData,
          TokenMap.get userId (userTokens w0) = Some tokenData /\
          js_ge (Fin (clock w0)) (expires_at tokenData) = false.
Proof.
  induction storedUsers as [|u rest IH];
    intros results res w0 w w' Hstore Hclock Hrun.
  - cbn in Hrun. unfold ret in Hrun. inversion Hrun; subst.
    exists [], []. rewrite app_nil_r. cbn.
    repeat split; auto using @Subseq_nil. intros k [].
  - rewrite pull_each_cons in Hrun.
    pose proof (pull_frame net u w) as Hstep.
    destruct (pullUserToGuild net u w) as [r1 w1].
    destruct Hstep as (Hs & Hc & Htrace).
    assert (Hrest : exists tr sent,
               trace w' = (trace w1 ++ tr)%list /\
               Subseq sent rest /\
               requests tr = map (member_request (userTokens w0)) sent /\
               forall userId, In userId sent ->
                 exists tokenData,
                   TokenMap.get userId (userTokens w0) = Some tokenData /\
                   js_ge (Fin (clock w0)) (expires_at tokenData) = false).
    { destruct (turn u r1 results) as [r2|e].
      - exact (IH _ _ w0 _ _ (eq_trans Hs Hstore)
                  (Z.le_trans _ _ _ Hclock Hc) Hrun).
      - inversion Hrun; subst. exists [], []. rewrite app_nil_r. cbn.
        repeat split; auto using Subseq_none. intros k []. }
    destruct Hrest as (tr & sent & Htr & Hsub & Hreq & Hlive).
    unfold requests in *.
    destruct Htrace as [Htrace | (td & Hget & Hnow & Htrace)].
    + exists (EvGet u :: tr), sent. rewrite Htr, Htrace, <- app_assoc.
      cbn [flat_map app]. repeat split; auto. apply Subseq_skip. exact Hsub.
    + exists (EvGet u :: EvFetch (PutMember (key_value u) (access_token td))
                :: tr), (u :: sent).
      rewrite Htr, Htrace, <- app_assoc. cbn [flat_map app map].
      rewrite Hreq. rewrite Hstore in Hget.
      unfold member_request at 2. rewrite Hget.
      repeat split; auto; [apply Subseq_take; exact Hsub|].
      intros k [<-|Hin]; [|exact (Hlive k Hin)].
      exists td. split; [exact Hget|]. eapply js_ge_earlier; eauto.
Qed.

(** X12. Every request the [/pull] command sends is the add-member request
    of a stored user, carrying the access token stored for that user, whose
    token was not expired when the command started; and the caller is the
    authorized puller.  The users served are taken from the stored keys in
    their order, none more often than it is stored: with distinct keys, at
    most one request is sent per stored user. *)
Theorem pull_requests_use_stored_tokens
        (interactionUserId : string) (w : World) :
  exists tr sent,
    trace (snd (pull_command field_ok net interactionUserId w))
    = (trace w ++ tr)%list /\
    Subseq sent (TokenMap.keys (userTokens w)) /\
    requests tr
    = map (fun userId =>
             PutMember (key_value userId)
               match TokenMap.get userId (userTokens w) with
               | Some tokenData => access_token tokenData
               | None => JUndefined
               end) sent /\
    (forall userId, In userId sent ->
       interactionUserId = AUTHORIZED_PULLER_ID /\
       exists tokenData,
         TokenMap.get userId (userTokens w) = Some tokenData /\
         js_ge (Fin (clock w)) (expires_at tokenData) = false) /\
    (NoDup (TokenMap.keys (userTokens w)) -> NoDup sent) /\
    (length (requests tr) <= length (userTokens w))%nat.
Proof.
  assert (Hquiet : forall w1,
             w1 = w \/ trace w1 = (trace w ++ [EvKeys])%list ->
             exists tr sent,
               trace w1 = (trace w ++ tr)%list /\
               Subseq sent (TokenMap.keys (userTokens w)) /\
               requests tr
               = map (member_request (userTokens w)) sent /\
               (forall userId, In userId sent ->
                  interactionUserId = AUTHORIZED_PULLER_ID /\
                  exists tokenData,
                    TokenMap.get userId (userTokens w) = Some tokenData /\
                    js_ge (Fin (clock w)) (expires_at tokenData) = false) /\
               (NoDup (TokenMap.keys (userTokens w)) -> NoDup sent) /\
               (length (requests tr) <= length (userTokens w))%nat).
  { intros w1 [->|Htrace].
    - exists [], []. rewrite app_nil_r. cbn.
      split; [reflexivity|]. split; [apply Subseq_none|].
      split; [reflexivity|]. split; [intros k []|].
      split; [constructor|lia].
    - exists [EvKeys], []. cbn.
      split; [exact Htrace|]. split; [apply Subseq_none|].
      split; [reflexivity|]. split; [intros k []|].
      split; [constructor|lia]. }
  destruct (String.eqb_spec interactionUserId AUTHORIZED_PULLER_ID) as [->|Hne].
  - destruct (pull_command_loop w) as (res & Hrun).
    destruct (pull_each_requests _ _ _ w (record EvKeys w) _ eq_refl
                (Z.le_refl _) Hrun)
      as (tr & sent & Htr & Hsub & Hsent & Hlive).
    exists (EvKeys :: tr), sent. cbn [record trace] in Htr.
    rewrite Htr, <- app_assoc. split; [reflexivity|].
    split; [exact Hsub|]. unfold requests in *. cbn [flat_map app].
    split; [exact Hsent|]. split; [|split].
    + intros userId Hin. split; [reflexivity|exact (Hlive userId Hin)].
    + intros Hnodup. exact (Subseq_NoDup _ _ Hsub Hnodup).
    + rewrite Hsent, length_map.
      pose proof (Subseq_length _ _ Hsub) as Hlen.
      unfold TokenMap.keys in Hlen. rewrite length_map in Hlen.
      exact Hlen.
  - rewrite (pull_command_unauthorized _ _ _ _ Hne). cbn [snd].
    apply Hquiet. left. reflexivity.
Qed.

(** X13. In the results object the command answers, [total] is the number
    of stored users, [failed] is the number of lines in [errors] (one line
    per failure, none dropped), and the three counters together never
    exceed [total]. *)
Theorem pull_summary_is_consistent (w w' : World) (results : Results) :
  pull_command field_ok net AUTHORIZED_PULLER_ID w
  = (Ok (ReplyEmbed results), w') ->
  total results = length (userTokens w) /\
  failed results = length (errors results) /\
  (counted results <= total results)%nat.
Proof.
  intros Hcmd. apply pull_reply_inv in Hcmd as (Hcmd & _).
  destruct (pull_each_results _ _ _ _ _ _ Hcmd)
    as (Htotal & (lines & Herr & Hfailed) & _ & _ & Hc).
  unfold counted in *. cbn [total added already_member failed errors app] in *.
  unfold TokenMap.keys in *. rewrite length_map in *.
  subst lines. repeat split; lia.
Qed.

(** X14. When the gateway's success answers to add-member carry status 201
    or 204 only, every stored user lands in exactly one counter:
    [total = added + already_member + failed]. *)
Theorem documented_statuses_partition_total
        (w w' : World) (results : Results) :
  (forall w0 req response,
      outcome (net w0 req) = Ok response -> ok response = true ->
      status response = 201 \/ status response = 204) ->
  pull_command field_ok net AUTHORIZED_PULLER_ID w
  = (Ok (ReplyEmbed results), w') ->
  total results = counted results.
Proof.
  intros Hdoc Hcmd. apply pull_reply_inv in Hcmd as (Hcmd & _).
  destruct (pull_each_results _ _ _ _ _ _ Hcmd) as (Htotal & _).
  rewrite (pull_each_counts_documented net _ Hdoc _ _ _ _ Hcmd), Htotal.
  reflexivity.
Qed.

(** X15. Every stored user whose token is expired when the command starts
    is counted in [failed]. *)
Theorem expired_tokens_are_failures (w w' : World) (results : Results) :
  pull_command field_ok net AUTHORIZED_PULLER_ID w
  = (Ok (ReplyEmbed results), w') ->
  (length (filter (expired_in w) (TokenMap.keys (userTokens w)))
   <= failed results)%nat.
Proof.
  intros Hcmd. apply pull_reply_inv in Hcmd as (Hcmd & _).
  apply (pull_each_failed_ge_expired net _ _ _ w) in Hcmd;
    [exact Hcmd|reflexivity|cbn; lia].
Qed.

(** X16. For a live token of a user whose id can be written into the URL,
    a non-success answer of the gateway is always a failure of
    [pullUserToGuild], and its message is the gateway's own: the [message]
    of a JSON object body, converted to a string (or the [TypeError] of a
    message that cannot be converted), or the text of a body that is not
    JSON; failing that, "Failed to pull user: " and the status text. *)
Theorem rejected_pull_is_a_failure
        (userId : Key) (w : World) (tokenData : TokenData)
        (idText : string) (response : Response) :
  TokenMap.get userId (userTokens w) = Some tokenData ->
  js_ge (Fin (clock w)) (expires_at tokenData) = false ->
  js_to_string (key_value userId) = Ok idText ->
  outcome (net (record (EvGet userId) w)
             (PutMember (key_value userId) (access_token tokenData)))
  = Ok response ->
  ok response = false ->
  exists message,
    fst (pullUserToGuild net userId w) = Throw message /\
    (forall fields,
        body response = BodyJson (JObj fields) ->
        (truthy (lookup_field "message" fields) = false ->
         message = "Failed to pull user: " ++ statusText response) /\
        (forall text,
            truthy (lookup_field "message" fields) = true ->
            js_to_string (lookup_field "message" fields) = Ok text ->
            message = text) /\
        (forall e,
            truthy (lookup_field "message" fields) = true ->
            js_to_string (lookup_field "message" fields) = Throw e ->
            message = e)) /\
    (forall text,
        body response = BodyText text ->
        message
        = if (text =? "")%string
          then "Failed to pull user: " ++ statusText response
          else text).
Proof.
  intros Hget Hlive Hprint Hout Hok.
  rewrite (pull_live net _ _ _ _ Hget Hlive Hprint). cbn [fst].
  unfold pull_answer. rewrite Hout, Hok. cbn [negb].
  unfold parse_error_body.
  destruct (body response) as [v|text].
  - destruct (get_prop v "message") as [m|e] eqn:Hm; cbn [rbind].
    + destruct (js_to_string (js_or m _)) as [shown|e] eqn:Hshown;
        cbn [rbind]; (eexists; split; [reflexivity|]);
        (split; [|discriminate]);
        intros fields Hv; injection Hv as ->; cbn in Hm; injection Hm as <-;
        unfold js_or in Hshown;
        (split; [|split]); intros; 
        repeat match goal with
               | H : truthy _ = _ |- _ => rewrite H in Hshown; clear H
               end; cbn [js_to_string] in Hshown; congruence.
    + eexists. split; [reflexivity|]. split; [|discriminate].
      intros fields Hv. injection Hv as ->. discriminate.
  - cbn [get_prop lookup_field]. rewrite String.eqb_refl. cbn [rbind].
    unfold js_or. cbn [truthy].
    destruct (text =? "")%string eqn:Hempty; cbn [negb js_to_string rbind];
      (eexists; split; [reflexivity|]); (split; [discriminate|]);
      intros text' Ht; injection Ht as <-; rewrite Hempty; reflexivity.
Qed.

(** X17. A normal return of [pullUserToGuild] means that a token was stored
    and not expired, that exactly one add-member request went out with it,
    and that the gateway answered with a success status: "added" exactly
    for 201, "already_member" exactly for 204, "success" for any other. *)
Theorem pull_result_reflects_status
        (userId : Key) (w w' : World) (result : string) :
  pullUserToGuild net userId w = (Ok result, w') ->
  exists tokenData response,
    TokenMap.get userId (userTokens w) = Some tokenData /\
    js_ge (Fin (clock w)) (expires_at tokenData) = false /\
    outcome (net (record (EvGet userId) w)
               (PutMember (key_value userId) (access_token tokenData)))
    = Ok response /\
    ok response = true /\
    trace w'
    = (trace w ++ [EvGet userId;
                   EvFetch (PutMember (key_value userId)
                              (access_token tokenData))])%list /\
    (result = "added" <-> status response = 201) /\
    (result = "already_member" <-> status response = 204) /\
    (result = "success" <-> status response <> 201 /\ status response <> 204).
Proof.
  intros Hpull.
  destruct (TokenMap.get userId (userTokens w)) as [td|] eqn:Hget;
    [|rewrite (pull_missing _ _ _ Hget) in Hpull; discriminate].
  destruct (js_ge (Fin (clock w)) (expires_at td)) eqn:Hexp;
    [rewrite (pull_expired _ _ _ _ Hget Hexp) in Hpull; discriminate|].
  destruct (js_to_string (key_value userId)) as [text|e] eqn:Hprint;
    [|rewrite (pull_unprintable _ _ _ _ _ Hget Hexp Hprint) in Hpull;
      discriminate].
  rewrite (pull_live _ _ _ _ _ Hget Hexp Hprint) in Hpull.
  injection Hpull as Hans <-. unfold pull_answer in Hans.
  destruct (outcome _) as [response|e] eqn:Hout; [|discriminate].
  destruct (ok response) eqn:Hok; cbn [negb] in Hans.
  2:{ destruct (get_prop _ _); cbn [rbind] in Hans; [|discriminate].
      destruct (js_to_string _); discriminate. }
  exists td, response. do 5 (split; [assumption || reflexivity|]).
  destruct (Z.eqb_spec (status response) 201) as [H201|H201].
  - injection Hans as <-. rewrite H201.
    repeat split; intros; try reflexivity; try discriminate; lia.
  - destruct (Z.eqb_spec (status response) 204) as [H204|H204].
    + injection Hans as <-. rewrite H204.
      repeat split; intros; try reflexivity; try discriminate; lia.
    + injection Hans as <-.
      repeat split; intros; try reflexivity; try discriminate;
        try contradiction; auto.
Qed.

(** X18. The command does nothing for anybody but the authorized puller: if
    it has read the store or sent anything, the caller's id is
    [AUTHORIZED_PULLER_ID]. *)
Theorem only_authorized_puller_acts (interactionUserId : string) (w : World) :
  snd (pull_command field_ok net interactionUserId w) <> w ->
  interactionUserId = AUTHORIZED_PULLER_ID.
Proof.
  intros Hacted.
  destruct (String.eqb_spec interactionUserId AUTHORIZED_PULLER_ID) as [->|Hne];
    [reflexivity|].
  rewrite (pull_command_unauthorized _ _ _ _ Hne) in Hacted.
  elim Hacted. reflexivity.
Qed.

End PullExtras.

(* ================================================================== *)
(** * From verification to admission *)
(* ================================================================== *)


(* ================================================================== *)
(** * The embed of [/pull] and the default avatar *)
(* ================================================================== *)

Lemma append_empty (s : string) : (s ++ "")%string = s.
Proof. induction s as [|c s IH]; cbn; [reflexivity|rewrite IH; reflexivity]. Qed.

(** X20. For the results object the command answers, the embed is green
    exactly when there is no error field.  With up to five failures the
    error field lists every error line; with more, it lists the first five
    and then says how many are left out, which is [failed - 5]. *)
Theorem error_field_of_pull
        (field_ok : string * string -> bool)
        (net : Net) (w w' : World) (results : Results) :
  pull_command field_ok net AUTHORIZED_PULLER_ID w
  = (Ok (ReplyEmbed results), w') ->
  (embed_color results = "#00ff00" <-> error_field results = None) /\
  ((0 < failed results <= 5)%nat ->
   error_field results
   = Some ("⚠️ Errors", String.concat newline (errors results))) /\
  ((5 < failed results)%nat ->
   error_field results
   = Some ("⚠️ Errors",
           String.concat newline (firstn 5 (errors results))
             ++ newline ++ "...and "
             ++ nat_to_string (failed results - 5) ++ " more")).
Proof.
  intros Hcmd. apply pull_reply_inv in Hcmd as (Hcmd & _).
  destruct (pull_each_results _ _ _ _ _ _ Hcmd)
    as (_ & (lines & Herr & Hfailed) & _).
  cbn [failed errors app] in Herr, Hfailed. subst lines.
  unfold embed_color, error_field. rewrite Hfailed.
  destruct (errors results) as [|line rest] eqn:Herrors.
  - cbn. repeat split; auto; lia.
  - cbn [length]. split; [|split].
    + cbn. split; discriminate.
    + intros Hle. replace (0 <? S (length rest))%nat with true
        by (symmetry; apply Nat.ltb_lt; lia).
      replace (5 <? S (length rest))%nat with false
        by (symmetry; apply Nat.ltb_ge; lia).
      rewrite firstn_all2 by (cbn [length]; lia).
      cbv zeta. rewrite append_empty. reflexivity.
    + intros Hgt. replace (0 <? S (length rest))%nat with true
        by (symmetry; apply Nat.ltb_lt; lia).
      replace (5 <? S (length rest))%nat with true
        by (symmetry; apply Nat.ltb_lt; lia).
      reflexivity.
Qed.

(** X21. Without an avatar asset, a decimal discriminator always selects
    one of the five default avatars: the index is the discriminator modulo
    5, between 0 and 4. *)
Theorem default_avatar_index_in_range (id avatar : JVal) (s : string) :
  truthy avatar = false ->
  s <> EmptyString -> all_digits s = true -> decimal_value s < 2 ^ 53 ->
  exists index,
    0 <= index < 5 /\
    index = decimal_value s mod 5 /\
    avatar_url id avatar (JStr s)
    = Ok ("https://cdn.discordapp.com/embed/avatars/"
            ++ Z_to_string index ++ ".png").
Proof.
  intros Hnone Hne Hdigits Hsafe.
  exists (decimal_value s mod 5).
  split; [apply Z.mod_pos_bound; lia|]. split; [reflexivity|].
  apply avatar_from_discriminator; assumption.
Qed.

(* ================================================================== *)
(** * Instances *)
(* ================================================================== *)


(** The entry stored in that run. *)
Example verified_token_entry :
  TokenMap.get (KStr "42")
    (userTokens
       (snd (auth_discord Fixtures.no_numerals
               CallbackFixtures.net_role_forbidden
               CallbackFixtures.hook CallbackFixtures.good_request
               Fixtures.nobody)))
  = Some (mkTokenData (JStr "AT") (JStr "RT") (Fin 604800002)).
Proof. vm_compute. reflexivity. Qed.

Lemma success_without_token_stores_nothing_witness :
  userTokens
    (snd (auth_discord Fixtures.no_numerals MoreFixtures.net_tokenless None
            CallbackFixtures.good_request Fixtures.three_users))
  = userTokens Fixtures.three_users.
Proof.
  apply (success_without_token_stores_nothing Fixtures.no_numerals
           MoreFixtures.net_tokenless None
           CallbackFixtures.good_request (JStr "good")
           (JObj [("token_type", JStr "Bearer")]) JUndefined
           Fixtures.three_users _ (success_reply CallbackFixtures.bob)).
  - vm_compute. reflexivity.
  - reflexivity.
  - reflexivity.
  - reflexivity.
  - reflexivity.
  - reflexivity.
Defined.


(** Verifying "42" a second time, four milliseconds later, replaces the
    entry: still four keys, and the later expiry. *)
Example second_verification_replaces :
  let w := snd (auth_discord Fixtures.no_numerals
                  CallbackFixtures.net_role_granted CallbackFixtures.hook
                  CallbackFixtures.good_request Fixtures.three_users) in
  let w' := snd (auth_discord Fixtures.no_numerals
                   CallbackFixtures.net_role_granted CallbackFixtures.hook
                   CallbackFixtures.good_request w) in
  TokenMap.keys (userTokens w)
  = [KStr "a"; KStr "b"; KStr "c"; KStr "42"] /\
  TokenMap.keys (userTokens w') = TokenMap.keys (userTokens w) /\
  TokenMap.get (KStr "42") (userTokens w)
  = Some (mkTokenData (JStr "AT") (JStr "RT") (Fin 604800012)) /\
  TokenMap.get (KStr "42") (userTokens w')
  = Some (mkTokenData (JStr "AT") (JStr "RT") (Fin 604800016)).
Proof. repeat split; vm_compute; reflexivity. Qed.

(** An id that is an object is a new key at every verification: the
    [Map] compares objects by identity. *)
Example object_id_is_a_new_key_each_time :
  let w := snd (auth_discord Fixtures.no_numerals
                  MoreFixtures.net_boxed_profile CallbackFixtures.hook
                  CallbackFixtures.good_request Fixtures.nobody) in
  let w' := snd (auth_discord Fixtures.no_numerals
                   MoreFixtures.net_boxed_profile CallbackFixtures.hook
                   CallbackFixtures.good_request w) in
  TokenMap.keys (userTokens w) = [to_key 2 MoreFixtures.boxed] /\
  TokenMap.keys (userTokens w')
  = [to_key 2 MoreFixtures.boxed; to_key 7 MoreFixtures.boxed].
Proof. split; vm_compute; reflexivity. Qed.

Lemma failed_verification_effects_witness :
  exists tr,
    trace (snd (auth_discord Fixtures.no_numerals
                  CallbackFixtures.net_role_granted
                  CallbackFixtures.hook CallbackFixtures.bad_request
                  Fixtures.three_users))
    = (trace Fixtures.three_users ++ tr)%list /\
    (length (requests tr) <= 2)%nat /\
    (forall req, In req (requests tr) ->
                 (exists code, req = TokenExchange code) \/
                 (exists bearer, req = GetProfile bearer)) /\
    (writes tr = [] /\
     userTokens (snd (auth_discord Fixtures.no_numerals
                        CallbackFixtures.net_role_granted
                        CallbackFixtures.hook CallbackFixtures.bad_request
                        Fixtures.three_users))
     = userTokens Fixtures.three_users \/
     reply_status
       (mkReply 400
          (JObj [("success", JBool false);
                 ("error", JStr "Invalid code in request.")])) = 500 /\
     exists key data,
       printable (key_value key) = false /\
       writes tr = [key] /\
       userTokens (snd (auth_discord Fixtures.no_numerals
                          CallbackFixtures.net_role_granted
                          CallbackFixtures.hook CallbackFixtures.bad_request
                          Fixtures.three_users))
       = TokenMap.set key data (userTokens Fixtures.three_users)).
Proof.
  apply (failed_verification_effects Fixtures.no_numerals
           CallbackFixtures.net_role_granted
           CallbackFixtures.hook CallbackFixtures.bad_request
           Fixtures.three_users _
           (mkReply 400
              (JObj [("success", JBool false);
                     ("error", JStr "Invalid code in request.")]))).
  - vm_compute. reflexivity.
  - cbn. discriminate.
Defined.

Lemma callback_always_answers_witness :
  exists reply w',
    auth_discord Fixtures.no_numerals MoreFixtures.net_down
      CallbackFixtures.hook CallbackFixtures.good_request Fixtures.nobody
    = (Ok reply, w') /\
    (reply_status reply = 200 \/ reply_status reply = 400 \/
     reply_status reply = 500) /\
    get_prop (reply_body reply) "success"
    = Ok (JBool (reply_status reply =? 200)).
Proof.
  apply (callback_always_answers Fixtures.no_numerals MoreFixtures.net_down
           CallbackFixtures.hook
           CallbackFixtures.good_request (JStr "good") Fixtures.nobody).
  reflexivity.
Defined.

Lemma profile_failure_is_refused_witness :
  exists reply w',
    auth_discord Fixtures.no_numerals MoreFixtures.net_profile_denied
      CallbackFixtures.hook CallbackFixtures.good_request Fixtures.three_users
    = (Ok reply, w') /\
    get_prop (reply_body reply) "success" = Ok (JBool false) /\
    userTokens w' = userTokens Fixtures.three_users /\
    trace w' = (trace Fixtures.three_users
                  ++ [EvFetch (TokenExchange (JStr "good"));
                      EvFetch (GetProfile (JStr "AT"))])%list /\
    (forall v, body (mkResponse 401 "Unauthorized" (BodyJson (JObj [])))
               = BodyJson v ->
               reply
               = mkReply 400
                   (JObj [("success", JBool false);
                          ("error",
                           JStr "Failed to fetch Discord user data")])) /\
    (forall text, body (mkResponse 401 "Unauthorized" (BodyJson (JObj [])))
                  = BodyText text -> reply_status reply = 500).
Proof.
  apply (profile_failure_is_refused Fixtures.no_numerals
           MoreFixtures.net_profile_denied
           CallbackFixtures.hook CallbackFixtures.good_request (JStr "good")
           CallbackFixtures.token_body (JStr "AT") Fixtures.three_users
           "good" "AT"
           (mkResponse 200 "OK" (BodyJson CallbackFixtures.token_body))).
  - reflexivity.
  - reflexivity.
  - reflexivity.
  - reflexivity.
  - reflexivity.
  - reflexivity.
  - reflexivity.
  - reflexivity.
  - reflexivity.
  - reflexivity.
Defined.

Lemma exchange_connection_failure_witness :
  exists w',
    auth_discord Fixtures.no_numerals MoreFixtures.net_down
      CallbackFixtures.hook CallbackFixtures.good_request Fixtures.three_users
    = (Ok (mkReply 500
             (JObj [("success", JBool false);
                    ("error",
                     JStr (if ("connect ECONNREFUSED" =? "")%string
                           then "Internal server error during authentication"
                           else "connect ECONNREFUSED"))])), w') /\
    userTokens w' = userTokens Fixtures.three_users /\
    trace w' = (trace Fixtures.three_users
                  ++ [EvFetch (TokenExchange (JStr "good"))])%list.
Proof.
  apply (exchange_connection_failure Fixtures.no_numerals
           MoreFixtures.net_down
           CallbackFixtures.hook CallbackFixtures.good_request (JStr "good")
           Fixtures.three_users "good" "connect ECONNREFUSED").
  - reflexivity.
  - reflexivity.
  - reflexivity.
  - reflexivity.
Defined.

Lemma successful_callback_trace_witness :
  exists code tokenData access user stored,
    get_prop CallbackFixtures.good_request "code" = Ok code /\
    rbind (outcome (CallbackFixtures.net_role_forbidden Fixtures.nobody
                      (TokenExchange code))) json = Ok tokenData /\
    get_prop tokenData "access_token" = Ok access /\
    reply_body (success_reply CallbackFixtures.bob)
    = JObj [("success", JBool true);
            ("user",
             JObj [("id", User.id user);
                   ("username", User.username user);
                   ("avatar", JStr (User.avatar user));
                   ("email", User.email user)])] /\
    trace (snd (auth_discord Fixtures.no_numerals
                  CallbackFixtures.net_role_forbidden
                  CallbackFixtures.hook CallbackFixtures.good_request
                  Fixtures.nobody))
    = (trace Fixtures.nobody
         ++ [EvFetch (TokenExchange code); EvFetch (GetProfile access)]
         ++ stored
         ++ (if printable (User.id user)
             then [EvFetch (PutRole (User.id user))] else [])
         ++ match CallbackFixtures.hook with
            | Some _ =>
                [EvFetch (PostWebhook (User.id user)
                            (js_or (User.email user) (JStr "Not provided"))
                            (if truthy (User.verified user)
                             then "Yes" else "No")
                            (User.avatar user))]
            | None => []
            end)%list /\
    (truthy access = true ->
     printable (User.id user) = true /\
     exists data,
       stored = [EvSet (to_key (length (trace Fixtures.nobody) + 2)
                          (User.id user)) data]) /\
    (truthy access = false -> stored = []).
Proof.
  apply (successful_callback_trace Fixtures.no_numerals
           CallbackFixtures.net_role_forbidden
           CallbackFixtures.hook CallbackFixtures.good_request Fixtures.nobody).
  - vm_compute. reflexivity.
  - reflexivity.
Defined.

(** The trace of that run. *)
Example successful_callback_events :
  trace (snd (auth_discord Fixtures.no_numerals
                CallbackFixtures.net_role_forbidden
                CallbackFixtures.hook CallbackFixtures.good_request
                Fixtures.nobody))
  = [EvFetch (TokenExchange (JStr "good"));
     EvFetch (GetProfile (JStr "AT"));
     EvSet (KStr "42")
       (mkTokenData (JStr "AT") (JStr "RT") (Fin 604800002));
     EvFetch (PutRole (JStr "42"));
     EvFetch (PostWebhook (JStr "42") (JStr "bob@example.com") "Yes"
                "https://cdn.discordapp.com/embed/avatars/4.png")].
Proof. vm_compute. reflexivity. Qed.

Lemma pull_summary_is_consistent_witness :
  total MoreFixtures.abc_results = length (userTokens Fixtures.three_users) /\
  failed MoreFixtures.abc_results = length (errors MoreFixtures.abc_results) /\
  (counted MoreFixtures.abc_results <= total MoreFixtures.abc_results)%nat.
Proof.
  apply (pull_summary_is_consistent DiscordJs.field_ok Fixtures.net_abc
           Fixtures.three_users
           (snd (pull_command DiscordJs.field_ok Fixtures.net_abc
                   AUTHORIZED_PULLER_ID Fixtures.three_users))).
  vm_compute. reflexivity.
Defined.

Lemma documented_statuses_partition_total_witness :
  total (mkResults 3 3 0 0 []) = counted (mkResults 3 3 0 0 []).
Proof.
  apply (documented_statuses_partition_total DiscordJs.field_ok
           MoreFixtures.net_created Fixtures.three_users
           (snd (pull_command DiscordJs.field_ok MoreFixtures.net_created
                   AUTHORIZED_PULLER_ID Fixtures.three_users))).
  - intros w0 req response Hout _. injection Hout as <-. left. reflexivity.
  - vm_compute. reflexivity.
Defined.

Lemma expired_tokens_are_failures_witness :
  (length (filter (expired_in Fixtures.stale_b)
             (TokenMap.keys (userTokens Fixtures.stale_b)))
   <= failed (mkResults 3 1 1 1 ["<@b>: Access token expired"]))%nat.
Proof.
  apply (expired_tokens_are_failures DiscordJs.field_ok Fixtures.net_abc
           Fixtures.stale_b
           (snd (pull_command DiscordJs.field_ok Fixtures.net_abc
                   AUTHORIZED_PULLER_ID Fixtures.stale_b))).
  vm_compute. reflexivity.
Defined.

Lemma rejected_pull_is_a_failure_witness :
  exists message,
    fst (pullUserToGuild MoreFixtures.net_forbidden (KStr "1")
           Fixtures.one_user) = Throw message /\
    (forall fields,
        body (mkResponse 403 "Forbidden"
                (BodyJson (JObj [("message", JStr "Missing Permissions")])))
        = BodyJson (JObj fields) ->
        (truthy (lookup_field "message" fields) = false ->
         message = "Failed to pull user: " ++ "Forbidden") /\
        (forall text,
            truthy (lookup_field "message" fields) = true ->
            js_to_string (lookup_field "message" fields) = Ok text ->
            message = text) /\
        (forall e,
            truthy (lookup_field "message" fields) = true ->
            js_to_string (lookup_field "message" fields) = Throw e ->
            message = e)) /\
    (forall text,
        body (mkResponse 403 "Forbidden"
                (BodyJson (JObj [("message", JStr "Missing Permissions")])))
        = BodyText text ->
        message
        = if (text =? "")%string
          then "Failed to pull user: " ++ "Forbidden"
          else text).
Proof.
  apply (rejected_pull_is_a_failure MoreFixtures.net_forbidden
           (KStr "1") Fixtures.one_user (Fixtures.grant "t1" 1000)
           "1").
  - reflexivity.
  - reflexivity.
  - reflexivity.
  - reflexivity.
  - reflexivity.
Defined.

(** The failure of that call. *)
Example rejected_pull_message :
  fst (pullUserToGuild MoreFixtures.net_forbidden (KStr "1")
         Fixtures.one_user)
  = Throw "Missing Permissions".
Proof. vm_compute. reflexivity. Qed.

Lemma pull_result_reflects_status_witness :
  exists tokenData response,
    TokenMap.get (KStr "1") (userTokens Fixtures.one_user)
    = Some tokenData /\
    js_ge (Fin (clock Fixtures.one_user)) (expires_at tokenData) = false /\
    outcome (Fixtures.net_200
               (record (EvGet (KStr "1")) Fixtures.one_user)
               (PutMember (key_value (KStr "1"))
                  (access_token tokenData))) = Ok response /\
    ok response = true /\
    trace (snd (pullUserToGuild Fixtures.net_200 (KStr "1")
                  Fixtures.one_user))
    = (trace Fixtures.one_user
         ++ [EvGet (KStr "1");
             EvFetch (PutMember (key_value (KStr "1"))
                        (access_token tokenData))])%list /\
    ("success" = "added" <-> status response = 201) /\
    ("success" = "already_member" <-> status response = 204) /\
    ("success" = "success" <->
     status response <> 201 /\ status response <> 204).
Proof.
  apply (pull_result_reflects_status Fixtures.net_200 (KStr "1")
           Fixtures.one_user).
  vm_compute. reflexivity.
Defined.

Lemma only_authorized_puller_acts_witness :
  AUTHORIZED_PULLER_ID = AUTHORIZED_PULLER_ID.
Proof.
  apply (only_authorized_puller_acts DiscordJs.field_ok Fixtures.net_abc
           AUTHORIZED_PULLER_ID Fixtures.three_users).
  vm_compute. discriminate.
Defined.


(** Verified at time 2 with a token good for 604800 seconds: pulled at
    time 4, and refused once the clock has reached the expiry. *)
Example pulled_then_expired :
  let w2 := snd (auth_discord Fixtures.no_numerals
                   CallbackFixtures.net_role_granted
                   CallbackFixtures.hook CallbackFixtures.good_request
                   Fixtures.nobody) in
  clock w2 = 4 /\
  fst (pullUserToGuild MoreFixtures.net_created (KStr "42") w2)
  = Ok "added" /\
  fst (pullUserToGuild MoreFixtures.net_created (KStr "42")
         (mkWorld (userTokens w2) 604800002 []))
  = Throw "Access token expired".
Proof. repeat split; vm_compute; reflexivity. Qed.

Lemma error_field_of_pull_witness :
  (embed_color MoreFixtures.seven_failures = "#00ff00"
   <-> error_field MoreFixtures.seven_failures = None) /\
  ((0 < failed MoreFixtures.seven_failures <= 5)%nat ->
   error_field MoreFixtures.seven_failures
   = Some ("⚠️ Errors",
           String.concat newline (errors MoreFixtures.seven_failures))) /\
  ((5 < failed MoreFixtures.seven_failures)%nat ->
   error_field MoreFixtures.seven_failures
   = Some ("⚠️ Errors",
           String.concat newline (firstn 5 (errors MoreFixtures.seven_failures))
             ++ newline ++ "...and "
             ++ nat_to_string (failed MoreFixtures.seven_failures - 5)
             ++ " more")).
Proof.
  apply (error_field_of_pull DiscordJs.field_ok MoreFixtures.net_forbidden
           MoreFixtures.seven_users
           (snd (pull_command DiscordJs.field_ok MoreFixtures.net_forbidden
                   AUTHORIZED_PULLER_ID MoreFixtures.seven_users))).
  vm_compute. reflexivity.
Defined.

(** Seven failures: five lines are shown, two are left out. *)
Example error_field_seven :
  exists shown,
    error_field MoreFixtures.seven_failures
    = Some ("⚠️ Errors", shown ++ newline ++ "...and 2 more") /\
    shown = String.concat newline
              (firstn 5 (errors MoreFixtures.seven_failures)).
Proof. eexists. split; reflexivity. Qed.

Lemma default_avatar_index_in_range_witness :
  exists index,
    0 <= index < 5 /\
    index = decimal_value "1234" mod 5 /\
    avatar_url (JStr "42") JNull (JStr "1234")
    = Ok ("https://cdn.discordapp.com/embed/avatars/"
            ++ Z_to_string index ++ ".png").
Proof.
  apply (default_avatar_index_in_range (JStr "42") JNull "1234").
  - reflexivity.
  - discriminate.
  - reflexivity.
  - vm_compute. reflexivity.
Defined.
